(** * mvnparser: a Maven POM decoder and its case-insensitive property lookup

    A shallow embedding of [parser.go].  The repository declares the POM
    schema as Go structs whose [xml:"..."] tags are interpreted by
    [encoding/xml]; it adds one hand-written decoding rule
    ([Properties.UnmarshalXML]), the entry point [Parse] and the accessor
    [GetProperty].

    The embedding keeps that shape:
    - the struct tags become tables of field descriptors ([typeInfo]), one
      per struct, in declaration order;
    - [encoding/xml]'s tag interpreter ([unmarshal], [unmarshalPath]) is a
      pair of generic functions over those tables;
    - [UnmarshalXML], [Parse] and [GetProperty] are transcribed statement by
      statement.

    The lexical layer of [encoding/xml] (bytes to tokens), the Unicode case
    tables behind [strings.ToLower] and the operating system's files are
    outside the repository; they appear as section variables or explicit
    arguments. *)

From Stdlib Require Import Ascii String List Bool.
From stdpp Require Import gmap strings list fin_maps.

Local Open Scope string_scope.
Local Open Scope list_scope.

(** ** Errors

    A Go [error] is represented by the text its [Error()] method returns,
    which is all that [Parse] ever looks at ([%v], [%s]). *)

Definition error := string.

Inductive result (A : Type) : Type :=
| Ok (a : A)
| Err (e : error).
Arguments Ok {A} a.
Arguments Err {A} e.

Definition bind {A B} (r : result A) (k : A -> result B) : result B :=
  match r with
  | Ok a => k a
  | Err e => Err e
  end.

Notation "x <-! r ; k" := (bind r (fun x => k))
  (at level 100, r at next level, right associativity,
   format "'[v' x  <-!  r ; '/' k ']'").

Definition isOk {A} (r : result A) : bool :=
  match r with Ok _ => true | Err _ => false end.

(** ** XML documents as [encoding/xml] hands them to a decoder *)

Module xml.

(** [xml.Name] *)
Record Name := { Space : string; Local : string }.

(** [xml.Attr] *)
Record Attr := { AttrName : Name; AttrValue : string }.

(** [xml.StartElement] *)
Record StartElement := { name : Name; attr : list Attr }.

(** The tokens between a start element and its matching end element, with
    every nested element grouped together with its own content: the view a
    decoder has once [Decoder.Token] has checked that tags are balanced. *)
#[warnings="-register-all"]
Inductive Node :=
| Element (start : StartElement) (content : list Node)
| CharData (data : string)
| Comment (text : string)
| ProcInst (target inst : string)
| Directive (text : string).

End xml.

Import xml.

(** The local name of an element. *)
Definition localOf (start : StartElement) : string := Local (name start).

(** [elementsNamed x content]: the child elements called [x], in document
    order. *)
Fixpoint elementsNamed (x : string) (content : list Node)
  : list (StartElement * list Node) :=
  match content with
  | [] => []
  | Element start c :: rest =>
      if String.eqb (localOf start) x
      then (start, c) :: elementsNamed x rest
      else elementsNamed x rest
  | _ :: rest => elementsNamed x rest
  end.

(** All child elements, whatever their names. *)
Fixpoint elements (content : list Node) : list (StartElement * list Node) :=
  match content with
  | [] => []
  | Element start c :: rest => (start, c) :: elements rest
  | _ :: rest => elements rest
  end.

(** The character data found directly inside an element: what the decoder
    accumulates in [data] ([case CharData: data = append(data, t...)]);
    nested elements are skipped and contribute nothing. *)
Fixpoint chardata (content : list Node) : string :=
  match content with
  | [] => ""
  | CharData d :: rest => d +:+ chardata rest
  | _ :: rest => chardata rest
  end.

(** ** The tag interpreter of [encoding/xml]

    [typeinfo.go] turns every struct field into a [fieldInfo]: a tag
    ["a>b>c"] gives the parents [a; b] and the name [c]; [",any"] and
    [",chardata"] select a mode instead of a name; a field called
    [XMLName] records (and, when its tag is not empty, constrains) the
    element's own name. *)

(** [strings.Split(tag, ">")] *)
Fixpoint splitPath (tag : string) (cur : string) : list string :=
  match tag with
  | EmptyString => [cur]
  | String c rest =>
      if Ascii.eqb c ">"%char
      then cur :: splitPath rest ""
      else splitPath rest (cur +:+ String c "")
  end.

Definition tagParents (tag : string) : list string :=
  removelast (splitPath tag "").

Definition tagName (tag : string) : string :=
  List.last (splitPath tag "") "".

Section TypeInfo.

Context {S : Type}.

(** [d.unmarshal(finfo.value(sv), start)]: decode the element that has
    just been opened into one field of the struct value [sv]. *)
Definition storer := StartElement -> list Node -> S -> result S.

Inductive fieldInfo :=
| fXMLName (tag : string) (set : Name -> S -> S)
| fElement (tag : string) (store : storer)
| fAny (goName : string) (store : storer)
| fCharData (set : string -> S -> S).

Definition typeInfo := list fieldInfo.

(** The fields that take part in path matching are those with the
    [fElement] flag; [getTypeInfo] also sets that flag on an [",any"]
    field, whose name is then the Go field name. *)
Definition fieldPath (f : fieldInfo) : option (list string * string * storer) :=
  match f with
  | fElement tag store => Some (tagParents tag, tagName tag, store)
  | fAny goName store => Some ([], goName, store)
  | fXMLName _ _ | fCharData _ => None
  end.

(** [tinfo.xmlname] *)
Fixpoint xmlname (tinfo : typeInfo) : option (string * (Name -> S -> S)) :=
  match tinfo with
  | [] => None
  | fXMLName tag set :: _ => Some (tag, set)
  | _ :: rest => xmlname rest
  end.

(** [saveAny]: the first [",any"] field. *)
Fixpoint saveAny (tinfo : typeInfo) : option storer :=
  match tinfo with
  | [] => None
  | fAny _ store :: _ => Some store
  | _ :: rest => saveAny rest
  end.

(** [saveData]: the first [",chardata"] field. *)
Fixpoint saveData (tinfo : typeInfo) : option (string -> S -> S) :=
  match tinfo with
  | [] => None
  | fCharData set :: _ => Some set
  | _ :: rest => saveData rest
  end.

(** [for j := range parents { if parents[j] != finfo.parents[j] ... }],
    together with the length test that precedes it. *)
Fixpoint hasPrefix (parents fparents : list string) : bool :=
  match parents, fparents with
  | [], _ => true
  | p :: parents', q :: fparents' => String.eqb p q && hasPrefix parents' fparents'
  | _ :: _, [] => false
  end.

Inductive pathMatch :=
| Perfect (store : storer)
| Prefix (parents' : list string)
| NoMatch.

(** The first loop of [unmarshalPath]: fields are tried in declaration
    order; the first whose path is reached exactly, or of whose path the
    element is the next component, decides. *)
Fixpoint matchField (tinfo : typeInfo) (parents : list string) (local : string)
  : pathMatch :=
  match tinfo with
  | [] => NoMatch
  | f :: rest =>
      match fieldPath f with
      | None => matchField rest parents local
      | Some (fparents, fname, store) =>
          if negb (hasPrefix parents fparents) then matchField rest parents local
          else if (length fparents =? length parents)%nat && String.eqb fname local
          then Perfect store
          else if (length parents <? length fparents)%nat
                  && String.eqb (nth (length parents) fparents "") local
          then Prefix (firstn (length parents + 1) fparents)
          else matchField rest parents local
      end
  end.

(** The second loop of [unmarshalPath]: every start element met inside a
    path component is offered to the fields again, one level deeper;
    unclaimed elements are skipped, other tokens ignored. *)
Definition pathLoop (step : Node -> S -> result (bool * S))
  : list Node -> S -> result S :=
  fix loop (toks : list Node) (sv : S) : result S :=
    match toks with
    | [] => Ok sv
    | t :: rest =>
        match t with
        | Element _ _ =>
            r <-! step t sv;
            loop rest (snd r)
        | _ => loop rest sv
        end
    end.

Fixpoint unmarshalPath (tinfo : typeInfo) (parents : list string)
    (t : Node) (sv : S) {struct t} : result (bool * S) :=
  match t with
  | Element start content =>
      match matchField tinfo parents (localOf start) with
      | Perfect store =>
          sv' <-! store start content sv;
          Ok (true, sv')
      | Prefix parents' =>
          sv' <-! pathLoop (unmarshalPath tinfo parents') content sv;
          Ok (true, sv')
      | NoMatch => Ok (false, sv)
      end
  | _ => Ok (false, sv)
  end.

(** The name test at the head of the struct case of [unmarshal]. *)
Definition checkName (tinfo : typeInfo) (start : StartElement) (sv : S)
  : result S :=
  match xmlname tinfo with
  | None => Ok sv
  | Some (tag, set) =>
      if negb (String.eqb tag "") && negb (String.eqb tag (localOf start))
      then Err ("expected element type <" +:+ tag +:+ "> but have <"
                +:+ localOf start +:+ ">")
      else Ok (set (name start) sv)
  end.

(** The token loop of the struct case: each child element goes to the
    field [unmarshalPath] finds for it, else to the [",any"] field, else
    it is skipped. *)
Fixpoint structLoop (tinfo : typeInfo) (toks : list Node) (sv : S)
  : result S :=
  match toks with
  | [] => Ok sv
  | Element start c :: rest =>
      r <-! unmarshalPath tinfo [] (Element start c) sv;
      if fst r then structLoop tinfo rest (snd r)
      else match saveAny tinfo with
           | Some store =>
               sv' <-! store start c (snd r);
               structLoop tinfo rest sv'
           | None => structLoop tinfo rest (snd r)
           end
  | _ :: rest => structLoop tinfo rest sv
  end.

(** [unmarshal] on a struct: name test, token loop, then
    [copyValue(saveData, data)] with the character data collected on the
    way. *)
Definition unmarshalStruct (tinfo : typeInfo) : storer :=
  fun start content sv =>
    sv1 <-! checkName tinfo start sv;
    sv2 <-! structLoop tinfo content sv1;
    Ok (match saveData tinfo with
        | Some set => set (chardata content) sv2
        | None => sv2
        end).

End TypeInfo.

Arguments fieldInfo : clear implicits.
Arguments typeInfo : clear implicits.
Arguments storer : clear implicits.

(** [unmarshal] on a string: the value itself is [saveData]; child
    elements are skipped; at the end element the collected character data
    replaces the old contents. *)
Definition unmarshalString : storer string :=
  fun _ content _ => Ok (chardata content).

(** [unmarshal] on a slice: grow by one zero element and decode into
    it. *)
Definition unmarshalSlice {A} (zero : A) (unmarshal : storer A)
  : storer (list A) :=
  fun start content v =>
    x <-! unmarshal start content zero;
    Ok (v ++ [x]).

(** [finfo.value(sv)] as a getter and a setter. *)
Definition into {S A} (get : S -> A) (set : A -> S -> S)
    (unmarshal : storer A) : storer S :=
  fun start content sv =>
    a <-! unmarshal start content (get sv);
    Ok (set a sv).
(** ** The POM schema of [parser.go]

    One module per struct: the record, its zero value, one setter per
    field, and the table of its tags.  A Go slice is represented by the
    sequence of its elements; the decoder only ever grows a slice by
    appending, so the [nil] slice of an untouched field is the empty
    sequence [[]] (length 0, nothing to range over) and every other slice
    has at least one element.

    [type Property struct] is declared in the source but used by no field
    and no function; it has no counterpart here. *)

Definition zeroName : Name := {| Space := ""; Local := "" |}.

(** [type Parent struct] *)
Module Parent.

Record t := {
  GroupId : string;
  ArtifactId : string;
  Version : string
}.

Definition zero : t :=
  {| GroupId := "";
     ArtifactId := "";
     Version := "" |}.

Definition set_GroupId (v : string) (sv : t) : t :=
  {| GroupId := v; ArtifactId := ArtifactId sv; Version := Version sv |}.

Definition set_ArtifactId (v : string) (sv : t) : t :=
  {| GroupId := GroupId sv; ArtifactId := v; Version := Version sv |}.

Definition set_Version (v : string) (sv : t) : t :=
  {| GroupId := GroupId sv; ArtifactId := ArtifactId sv; Version := v |}.

(** The struct's fields as their tags describe them, in declaration order. *)
Definition info : typeInfo t :=
  [ fElement "groupId" (into GroupId set_GroupId unmarshalString);
    fElement "artifactId" (into ArtifactId set_ArtifactId unmarshalString);
    fElement "version" (into Version set_Version unmarshalString) ].

Definition unmarshal : storer t := unmarshalStruct info.

End Parent.

(** [type propertyEntry struct]: one child of [<properties>], its name and its character data. *)
Module propertyEntry.

Record t := {
  XMLName : xml.Name;
  Value : string
}.

Definition zero : t :=
  {| XMLName := zeroName;
     Value := "" |}.

Definition set_XMLName (v : xml.Name) (sv : t) : t :=
  {| XMLName := v; Value := Value sv |}.

Definition set_Value (v : string) (sv : t) : t :=
  {| XMLName := XMLName sv; Value := v |}.

(** The struct's fields as their tags describe them, in declaration order. *)
Definition info : typeInfo t :=
  [ fXMLName "" set_XMLName;
    fCharData set_Value ].

Definition unmarshal : storer t := unmarshalStruct info.

End propertyEntry.

(** [type propertyEntries struct]: every child element, whatever its name. *)
Module propertyEntries.

Record t := {
  Entries : list propertyEntry.t
}.

Definition zero : t :=
  {| Entries := [] |}.

Definition set_Entries (v : list propertyEntry.t) (sv : t) : t :=
  {| Entries := v |}.

(** The struct's fields as their tags describe them, in declaration order. *)
Definition info : typeInfo t :=
  [ fAny "Entries" (into Entries set_Entries
                      (unmarshalSlice propertyEntry.zero propertyEntry.unmarshal)) ].

Definition unmarshal : storer t := unmarshalStruct info.

End propertyEntries.

(** [type Properties map[string]string].  A Go map is either [nil] or
    allocated; writing to a [nil] map panics, which is why the source
    allocates before the first write.  [None] is the [nil] map. *)
Module Properties.

Definition t := option (gmap string string).

Definition zero : t := None.

(** The assignment to the map entry [entry.XMLName.Local], preceded by
    the allocation the source performs when the map is still [nil]. *)
Definition assign (props : t) (key value : string) : t :=
  let props := match props with
               | None => Some ∅
               | Some m => Some m
               end in
  match props with
  | Some m => Some (<[key := value]> m)
  | None => None
  end.

(** [func (props *Properties) UnmarshalXML(d *xml.Decoder, start xml.StartElement) error]:
    the decoder [d] stands just after [start], so what it will deliver is
    the content of that element. *)
Definition UnmarshalXML (props : t) (start : StartElement) (content : list Node)
  : result t :=
  entries <-! propertyEntries.unmarshal start content propertyEntries.zero;
  Ok (fold_left
        (fun props entry =>
           assign props (Local (propertyEntry.XMLName entry))
                        (propertyEntry.Value entry))
        (propertyEntries.Entries entries) props).

(** A field whose address implements [xml.Unmarshaler] is decoded by its
    own method ([unmarshalInterface]). *)
Definition unmarshal : storer t :=
  fun start content props => UnmarshalXML props start content.

(** The stored pairs; none for the [nil] map. *)
Definition entries (props : t) : gmap string string :=
  match props with
  | Some m => m
  | None => ∅
  end.

End Properties.

(** [type Exclusion struct] *)
Module Exclusion.

Record t := {
  XMLName : xml.Name;
  GroupId : string;
  ArtifactId : string
}.

Definition zero : t :=
  {| XMLName := zeroName;
     GroupId := "";
     ArtifactId := "" |}.

Definition set_XMLName (v : xml.Name) (sv : t) : t :=
  {| XMLName := v; GroupId := GroupId sv; ArtifactId := ArtifactId sv |}.

Definition set_GroupId (v : string) (sv : t) : t :=
  {| XMLName := XMLName sv; GroupId := v; ArtifactId := ArtifactId sv |}.

Definition set_ArtifactId (v : string) (sv : t) : t :=
  {| XMLName := XMLName sv; GroupId := GroupId sv; ArtifactId := v |}.

(** The struct's fields as their tags describe them, in declaration order. *)
Definition info : typeInfo t :=
  [ fXMLName "exclusion" set_XMLName;
    fElement "groupId" (into GroupId set_GroupId unmarshalString);
    fElement "artifactId" (into ArtifactId set_ArtifactId unmarshalString) ].

Definition unmarshal : storer t := unmarshalStruct info.

End Exclusion.

(** [type Dependency struct].  The Go field [Type] is spelled [Type_], the word being reserved here. *)
Module Dependency.

Record t := {
  XMLName : xml.Name;
  GroupId : string;
  ArtifactId : string;
  Version : string;
  Classifier : string;
  Type_ : string;
  Scope : string;
  Exclusions : list Exclusion.t
}.

Definition zero : t :=
  {| XMLName := zeroName;
     GroupId := "";
     ArtifactId := "";
     Version := "";
     Classifier := "";
     Type_ := "";
     Scope := "";
     Exclusions := [] |}.

Definition set_XMLName (v : xml.Name) (sv : t) : t :=
  {| XMLName := v; GroupId := GroupId sv; ArtifactId := ArtifactId sv;
     Version := Version sv; Classifier := Classifier sv; Type_ := Type_ sv;
     Scope := Scope sv; Exclusions := Exclusions sv |}.

Definition set_GroupId (v : string) (sv : t) : t :=
  {| XMLName := XMLName sv; GroupId := v; ArtifactId := ArtifactId sv;
     Version := Version sv; Classifier := Classifier sv; Type_ := Type_ sv;
     Scope := Scope sv; Exclusions := Exclusions sv |}.

Definition set_ArtifactId (v : string) (sv : t) : t :=
  {| XMLName := XMLName sv; GroupId := GroupId sv; ArtifactId := v;
     Version := Version sv; Classifier := Classifier sv; Type_ := Type_ sv;
     Scope := Scope sv; Exclusions := Exclusions sv |}.

Definition set_Version (v : string) (sv : t) : t :=
  {| XMLName := XMLName sv; GroupId := GroupId sv;
     ArtifactId := ArtifactId sv; Version := v; Classifier := Classifier sv;
     Type_ := Type_ sv; Scope := Scope sv; Exclusions := Exclusions sv |}.

Definition set_Classifier (v : string) (sv : t) : t :=
  {| XMLName := XMLName sv; GroupId := GroupId sv;
     ArtifactId := ArtifactId sv; Version := Version sv; Classifier := v;
     Type_ := Type_ sv; Scope := Scope sv; Exclusions := Exclusions sv |}.

Definition set_Type_ (v : string) (sv : t) : t :=
  {| XMLName := XMLName sv; GroupId := GroupId sv;
     ArtifactId := ArtifactId sv; Version := Version sv;
     Classifier := Classifier sv; Type_ := v; Scope := Scope sv;
     Exclusions := Exclusions sv |}.

Definition set_Scope (v : string) (sv : t) : t :=
  {| XMLName := XMLName sv; GroupId := GroupId sv;
     ArtifactId := ArtifactId sv; Version := Version sv;
     Classifier := Classifier sv; Type_ := Type_ sv; Scope := v;
     Exclusions := Exclusions sv |}.

Definition set_Exclusions (v : list Exclusion.t) (sv : t) : t :=
  {| XMLName := XMLName sv; GroupId := GroupId sv;
     ArtifactId := ArtifactId sv; Version := Version sv;
     Classifier := Classifier sv; Type_ := Type_ sv; Scope := Scope sv;
     Exclusions := v |}.

(** The struct's fields as their tags describe them, in declaration order. *)
Definition info : typeInfo t :=
  [ fXMLName "dependency" set_XMLName;
    fElement "groupId" (into GroupId set_GroupId unmarshalString);
    fElement "artifactId" (into ArtifactId set_ArtifactId unmarshalString);
    fElement "version" (into Version set_Version unmarshalString);
    fElement "classifier" (into Classifier set_Classifier unmarshalString);
    fElement "type" (into Type_ set_Type_ unmarshalString);
    fElement "scope" (into Scope set_Scope unmarshalString);
    fElement "exclusions>exclusion"
      (into Exclusions set_Exclusions (unmarshalSlice Exclusion.zero Exclusion.unmarshal)) ].

Definition unmarshal : storer t := unmarshalStruct info.

End Dependency.

(** [type DependencyManagement struct] *)
Module DependencyManagement.

Record t := {
  Dependencies : list Dependency.t
}.

Definition zero : t :=
  {| Dependencies := [] |}.

Definition set_Dependencies (v : list Dependency.t) (sv : t) : t :=
  {| Dependencies := v |}.

(** The struct's fields as their tags describe them, in declaration order. *)
Definition info : typeInfo t :=
  [ fElement "dependencies>dependency"
      (into Dependencies set_Dependencies (unmarshalSlice Dependency.zero Dependency.unmarshal)) ].

Definition unmarshal : storer t := unmarshalStruct info.

End DependencyManagement.

(** [type Repository struct] *)
Module Repository.

Record t := {
  Id : string;
  Name : string;
  Url : string
}.

Definition zero : t :=
  {| Id := "";
     Name := "";
     Url := "" |}.

Definition set_Id (v : string) (sv : t) : t :=
  {| Id := v; Name := Name sv; Url := Url sv |}.

Definition set_Name (v : string) (sv : t) : t :=
  {| Id := Id sv; Name := v; Url := Url sv |}.

Definition set_Url (v : string) (sv : t) : t :=
  {| Id := Id sv; Name := Name sv; Url := v |}.

(** The struct's fields as their tags describe them, in declaration order. *)
Definition info : typeInfo t :=
  [ fElement "id" (into Id set_Id unmarshalString);
    fElement "name" (into Name set_Name unmarshalString);
    fElement "url" (into Url set_Url unmarshalString) ].

Definition unmarshal : storer t := unmarshalStruct info.

End Repository.

(** [type Plugin struct] *)
Module Plugin.

Record t := {
  XMLName : xml.Name;
  GroupId : string;
  ArtifactId : string;
  Version : string
}.

Definition zero : t :=
  {| XMLName := zeroName;
     GroupId := "";
     ArtifactId := "";
     Version := "" |}.

Definition set_XMLName (v : xml.Name) (sv : t) : t :=
  {| XMLName := v; GroupId := GroupId sv; ArtifactId := ArtifactId sv;
     Version := Version sv |}.

Definition set_GroupId (v : string) (sv : t) : t :=
  {| XMLName := XMLName sv; GroupId := v; ArtifactId := ArtifactId sv;
     Version := Version sv |}.

Definition set_ArtifactId (v : string) (sv : t) : t :=
  {| XMLName := XMLName sv; GroupId := GroupId sv; ArtifactId := v;
     Version := Version sv |}.

Definition set_Version (v : string) (sv : t) : t :=
  {| XMLName := XMLName sv; GroupId := GroupId sv;
     ArtifactId := ArtifactId sv; Version := v |}.

(** The struct's fields as their tags describe them, in declaration order. *)
Definition info : typeInfo t :=
  [ fXMLName "plugin" set_XMLName;
    fElement "groupId" (into GroupId set_GroupId unmarshalString);
    fElement "artifactId" (into ArtifactId set_ArtifactId unmarshalString);
    fElement "version" (into Version set_Version unmarshalString) ].

Definition unmarshal : storer t := unmarshalStruct info.

End Plugin.

(** [type Build struct] *)
Module Build.

Record t := {
  Plugins : list Plugin.t
}.

Definition zero : t :=
  {| Plugins := [] |}.

Definition set_Plugins (v : list Plugin.t) (sv : t) : t :=
  {| Plugins := v |}.

(** The struct's fields as their tags describe them, in declaration order. *)
Definition info : typeInfo t :=
  [ fElement "plugins>plugin"
      (into Plugins set_Plugins (unmarshalSlice Plugin.zero Plugin.unmarshal)) ].

Definition unmarshal : storer t := unmarshalStruct info.

End Build.

(** [type Profile struct] *)
Module Profile.

Record t := {
  Id : string;
  Build : Build.t
}.

Definition zero : t :=
  {| Id := "";
     Build := Build.zero |}.

Definition set_Id (v : string) (sv : t) : t :=
  {| Id := v; Build := Build sv |}.

Definition set_Build (v : Build.t) (sv : t) : t :=
  {| Id := Id sv; Build := v |}.

(** The struct's fields as their tags describe them, in declaration order. *)
Definition info : typeInfo t :=
  [ fElement "id" (into Id set_Id unmarshalString);
    fElement "build" (into Build set_Build Build.unmarshal) ].

Definition unmarshal : storer t := unmarshalStruct info.

End Profile.

(** [type PluginRepository struct] *)
Module PluginRepository.

Record t := {
  Id : string;
  Name : string;
  Url : string
}.

Definition zero : t :=
  {| Id := "";
     Name := "";
     Url := "" |}.

Definition set_Id (v : string) (sv : t) : t :=
  {| Id := v; Name := Name sv; Url := Url sv |}.

Definition set_Name (v : string) (sv : t) : t :=
  {| Id := Id sv; Name := v; Url := Url sv |}.

Definition set_Url (v : string) (sv : t) : t :=
  {| Id := Id sv; Name := Name sv; Url := v |}.

(** The struct's fields as their tags describe them, in declaration order. *)
Definition info : typeInfo t :=
  [ fElement "id" (into Id set_Id unmarshalString);
    fElement "name" (into Name set_Name unmarshalString);
    fElement "url" (into Url set_Url unmarshalString) ].

Definition unmarshal : storer t := unmarshalStruct info.

End PluginRepository.

(** [type MavenProject struct]: a POM file. *)
Module MavenProject.

Record t := {
  XMLName : xml.Name;
  ModelVersion : string;
  Parent : Parent.t;
  GroupId : string;
  ArtifactId : string;
  Version : string;
  Packaging : string;
  Name : string;
  Repositories : list Repository.t;
  Properties : Properties.t;
  DependencyManagement : DependencyManagement.t;
  Dependencies : list Dependency.t;
  Profiles : list Profile.t;
  Build : Build.t;
  PluginRepositories : list PluginRepository.t
}.

Definition zero : t :=
  {| XMLName := zeroName;
     ModelVersion := "";
     Parent := Parent.zero;
     GroupId := "";
     ArtifactId := "";
     Version := "";
     Packaging := "";
     Name := "";
     Repositories := [];
     Properties := Properties.zero;
     DependencyManagement := DependencyManagement.zero;
     Dependencies := [];
     Profiles := [];
     Build := Build.zero;
     PluginRepositories := [] |}.

Definition set_XMLName (v : xml.Name) (sv : t) : t :=
  {| XMLName := v; ModelVersion := ModelVersion sv; Parent := Parent sv;
     GroupId := GroupId sv; ArtifactId := ArtifactId sv;
     Version := Version sv; Packaging := Packaging sv; Name := Name sv;
     Repositories := Repositories sv; Properties := Properties sv;
     DependencyManagement := DependencyManagement sv;
     Dependencies := Dependencies sv; Profiles := Profiles sv;
     Build := Build sv; PluginRepositories := PluginRepositories sv |}.

Definition set_ModelVersion (v : string) (sv : t) : t :=
  {| XMLName := XMLName sv; ModelVersion := v; Parent := Parent sv;
     GroupId := GroupId sv; ArtifactId := ArtifactId sv;
     Version := Version sv; Packaging := Packaging sv; Name := Name sv;
     Repositories := Repositories sv; Properties := Properties sv;
     DependencyManagement := DependencyManagement sv;
     Dependencies := Dependencies sv; Profiles := Profiles sv;
     Build := Build sv; PluginRepositories := PluginRepositories sv |}.

Definition set_Parent (v : Parent.t) (sv : t) : t :=
  {| XMLName := XMLName sv; ModelVersion := ModelVersion sv; Parent := v;
     GroupId := GroupId sv; ArtifactId := ArtifactId sv;
     Version := Version sv; Packaging := Packaging sv; Name := Name sv;
     Repositories := Repositories sv; Properties := Properties sv;
     DependencyManagement := DependencyManagement sv;
     Dependencies := Dependencies sv; Profiles := Profiles sv;
     Build := Build sv; PluginRepositories := PluginRepositories sv |}.

Definition set_GroupId (v : string) (sv : t) : t :=
  {| XMLName := XMLName sv; ModelVersion := ModelVersion sv;
     Parent := Parent sv; GroupId := v; ArtifactId := ArtifactId sv;
     Version := Version sv; Packaging := Packaging sv; Name := Name sv;
     Repositories := Repositories sv; Properties := Properties sv;
     DependencyManagement := DependencyManagement sv;
     Dependencies := Dependencies sv; Profiles := Profiles sv;
     Build := Build sv; PluginRepositories := PluginRepositories sv |}.

Definition set_ArtifactId (v : string) (sv : t) : t :=
  {| XMLName := XMLName sv; ModelVersion := ModelVersion sv;
     Parent := Parent sv; GroupId := GroupId sv; ArtifactId := v;
     Version := Version sv; Packaging := Packaging sv; Name := Name sv;
     Repositories := Repositories sv; Properties := Properties sv;
     DependencyManagement := DependencyManagement sv;
     Dependencies := Dependencies sv; Profiles := Profiles sv;
     Build := Build sv; PluginRepositories := PluginRepositories sv |}.

Definition set_Version (v : string) (sv : t) : t :=
  {| XMLName := XMLName sv; ModelVersion := ModelVersion sv;
     Parent := Parent sv; GroupId := GroupId sv; ArtifactId := ArtifactId sv;
     Version := v; Packaging := Packaging sv; Name := Name sv;
     Repositories := Repositories sv; Properties := Properties sv;
     DependencyManagement := DependencyManagement sv;
     Dependencies := Dependencies sv; Profiles := Profiles sv;
     Build := Build sv; PluginRepositories := PluginRepositories sv |}.

Definition set_Packaging (v : string) (sv : t) : t :=
  {| XMLName := XMLName sv; ModelVersion := ModelVersion sv;
     Parent := Parent sv; GroupId := GroupId sv; ArtifactId := ArtifactId sv;
     Version := Version sv; Packaging := v; Name := Name sv;
     Repositories := Repositories sv; Properties := Properties sv;
     DependencyManagement := DependencyManagement sv;
     Dependencies := Dependencies sv; Profiles := Profiles sv;
     Build := Build sv; PluginRepositories := PluginRepositories sv |}.

Definition set_Name (v : string) (sv : t) : t :=
  {| XMLName := XMLName sv; ModelVersion := ModelVersion sv;
     Parent := Parent sv; GroupId := GroupId sv; ArtifactId := ArtifactId sv;
     Version := Version sv; Packaging := Packaging sv; Name := v;
     Repositories := Repositories sv; Properties := Properties sv;
     DependencyManagement := DependencyManagement sv;
     Dependencies := Dependencies sv; Profiles := Profiles sv;
     Build := Build sv; PluginRepositories := PluginRepositories sv |}.

Definition set_Repositories (v : list Repository.t) (sv : t) : t :=
  {| XMLName := XMLName sv; ModelVersion := ModelVersion sv;
     Parent := Parent sv; GroupId := GroupId sv; ArtifactId := ArtifactId sv;
     Version := Version sv; Packaging := Packaging sv; Name := Name sv;
     Repositories := v; Properties := Properties sv;
     DependencyManagement := DependencyManagement sv;
     Dependencies := Dependencies sv; Profiles := Profiles sv;
     Build := Build sv; PluginRepositories := PluginRepositories sv |}.

Definition set_Properties (v : Properties.t) (sv : t) : t :=
  {| XMLName := XMLName sv; ModelVersion := ModelVersion sv;
     Parent := Parent sv; GroupId := GroupId sv; ArtifactId := ArtifactId sv;
     Version := Version sv; Packaging := Packaging sv; Name := Name sv;
     Repositories := Repositories sv; Properties := v;
     DependencyManagement := DependencyManagement sv;
     Dependencies := Dependencies sv; Profiles := Profiles sv;
     Build := Build sv; PluginRepositories := PluginRepositories sv |}.

Definition set_DependencyManagement (v : DependencyManagement.t) (sv : t) : t :=
  {| XMLName := XMLName sv; ModelVersion := ModelVersion sv;
     Parent := Parent sv; GroupId := GroupId sv; ArtifactId := ArtifactId sv;
     Version := Version sv; Packaging := Packaging sv; Name := Name sv;
     Repositories := Repositories sv; Properties := Properties sv;
     DependencyManagement := v; Dependencies := Dependencies sv;
     Profiles := Profiles sv; Build := Build sv;
     PluginRepositories := PluginRepositories sv |}.

Definition set_Dependencies (v : list Dependency.t) (sv : t) : t :=
  {| XMLName := XMLName sv; ModelVersion := ModelVersion sv;
     Parent := Parent sv; GroupId := GroupId sv; ArtifactId := ArtifactId sv;
     Version := Version sv; Packaging := Packaging sv; Name := Name sv;
     Repositories := Repositories sv; Properties := Properties sv;
     DependencyManagement := DependencyManagement sv; Dependencies := v;
     Profiles := Profiles sv; Build := Build sv;
     PluginRepositories := PluginRepositories sv |}.

Definition set_Profiles (v : list Profile.t) (sv : t) : t :=
  {| XMLName := XMLName sv; ModelVersion := ModelVersion sv;
     Parent := Parent sv; GroupId := GroupId sv; ArtifactId := ArtifactId sv;
     Version := Version sv; Packaging := Packaging sv; Name := Name sv;
     Repositories := Repositories sv; Properties := Properties sv;
     DependencyManagement := DependencyManagement sv;
     Dependencies := Dependencies sv; Profiles := v; Build := Build sv;
     PluginRepositories := PluginRepositories sv |}.

Definition set_Build (v : Build.t) (sv : t) : t :=
  {| XMLName := XMLName sv; ModelVersion := ModelVersion sv;
     Parent := Parent sv; GroupId := GroupId sv; ArtifactId := ArtifactId sv;
     Version := Version sv; Packaging := Packaging sv; Name := Name sv;
     Repositories := Repositories sv; Properties := Properties sv;
     DependencyManagement := DependencyManagement sv;
     Dependencies := Dependencies sv; Profiles := Profiles sv; Build := v;
     PluginRepositories := PluginRepositories sv |}.

Definition set_PluginRepositories (v : list PluginRepository.t) (sv : t) : t :=
  {| XMLName := XMLName sv; ModelVersion := ModelVersion sv;
     Parent := Parent sv; GroupId := GroupId sv; ArtifactId := ArtifactId sv;
     Version := Version sv; Packaging := Packaging sv; Name := Name sv;
     Repositories := Repositories sv; Properties := Properties sv;
     DependencyManagement := DependencyManagement sv;
     Dependencies := Dependencies sv; Profiles := Profiles sv;
     Build := Build sv; PluginRepositories := v |}.

(** The struct's fields as their tags describe them, in declaration order. *)
Definition info : typeInfo t :=
  [ fXMLName "project" set_XMLName;
    fElement "modelVersion" (into ModelVersion set_ModelVersion unmarshalString);
    fElement "parent" (into Parent set_Parent Parent.unmarshal);
    fElement "groupId" (into GroupId set_GroupId unmarshalString);
    fElement "artifactId" (into ArtifactId set_ArtifactId unmarshalString);
    fElement "version" (into Version set_Version unmarshalString);
    fElement "packaging" (into Packaging set_Packaging unmarshalString);
    fElement "name" (into Name set_Name unmarshalString);
    fElement "repositories>repository"
      (into Repositories set_Repositories (unmarshalSlice Repository.zero Repository.unmarshal));
    fElement "properties" (into Properties set_Properties Properties.unmarshal);
    fElement "dependencyManagement"
      (into DependencyManagement set_DependencyManagement DependencyManagement.unmarshal);
    fElement "dependencies>dependency"
      (into Dependencies set_Dependencies (unmarshalSlice Dependency.zero Dependency.unmarshal));
    fElement "profiles" (into Profiles set_Profiles (unmarshalSlice Profile.zero Profile.unmarshal));
    fElement "build" (into Build set_Build Build.unmarshal);
    fElement "pluginRepositories>pluginRepository"
      (into PluginRepositories set_PluginRepositories
         (unmarshalSlice PluginRepository.zero PluginRepository.unmarshal)) ].

Definition unmarshal : storer t := unmarshalStruct info.

End MavenProject.

(** ** [strings.ToLower]

    Go strings are byte sequences.  [ToLower] has a fast path for strings
    made of ASCII bytes only, which it handles byte by byte; any other
    string goes through [strings.Map(unicode.ToLower, s)], whose Unicode
    tables are taken as a parameter. *)

Definition RuneSelf : N := 128.

Fixpoint isASCII (s : string) : bool :=
  match s with
  | EmptyString => true
  | String c rest => (N_of_ascii c <? RuneSelf)%N && isASCII rest
  end.

(** ['A' <= c && c <= 'Z'] *)
Definition isUpper (c : ascii) : bool :=
  (65 <=? N_of_ascii c)%N && (N_of_ascii c <=? 90)%N.

Fixpoint hasUpper (s : string) : bool :=
  match s with
  | EmptyString => false
  | String c rest => isUpper c || hasUpper rest
  end.

(** [c += 'a' - 'A'] *)
Definition lowerByte (c : ascii) : ascii :=
  if isUpper c then ascii_of_N (N_of_ascii c + 32) else c.

Fixpoint mapBytes (f : ascii -> ascii) (s : string) : string :=
  match s with
  | EmptyString => EmptyString
  | String c rest => String (f c) (mapBytes f rest)
  end.

Definition ToLower (unicodeToLower : string -> string) (s : string) : string :=
  if isASCII s then
    if hasUpper s then mapBytes lowerByte s else s
  else unicodeToLower s.

(** ** The environment of [Parse] *)

(** What [Decoder.Token] makes of a byte sequence, as far as
    [xml.Unmarshal] reads it: [Unmarshal] drops every token before the
    first start element, decodes that element, and stops at its end
    element without looking at what follows. *)
Inductive document :=
| NoElement (e : error)
    (* [Token] fails before any start element: [io.EOF] when the input
       holds no element at all, a syntax error otherwise *)
| Truncated (start : StartElement) (e : error)
    (* the first element opens, and [Token] fails before its end element:
       an unclosed or mismatched tag, a stray [<], ... *)
| Root (start : StartElement) (content : list Node).
    (* the first element, read through to its end element *)

(** An open file: what [ioutil.ReadAll] will get from it. *)
Record File := { ReadAll : result (list Byte.byte) }.

(** The file system: what [os.Open] answers for a path. *)
Definition FileSystem := string -> result File.

(** What a call of [Parse] comes to: it returns its pair of results, or
    [log.Fatalf] writes a line to the standard logger and ends the process
    with [os.Exit(1)].  [line] is the formatted message, without the
    logger's date prefix. *)
Inductive outcome :=
| Return (project : option MavenProject.t) (err : option error)
| Fatal (line : string).

(** [order] is an order in which [range] may visit the pairs of [props]:
    each stored pair once, none for the [nil] map. *)
Definition rangeOrder (props : Properties.t) (order : list (string * string))
  : Prop :=
  order ≡ₚ map_to_list (Properties.entries props).

Section Program.

(** The lexical layer of [encoding/xml]. *)
Variable tokens : list Byte.byte -> document.

(** [strings.Map(unicode.ToLower, s)] *)
Variable unicodeToLower : string -> string.

(** [xml.Unmarshal(data, &project)]: the struct is updated in place; the
    result is the error, or the struct as it stands on return. *)
Definition Unmarshal (data : list Byte.byte) (v : MavenProject.t)
  : result MavenProject.t :=
  match tokens data with
  | NoElement e => Err e
  | Truncated start e =>
      _ <-! checkName MavenProject.info start v;
      Err e
  | Root start content => MavenProject.unmarshal start content v
  end.

(** [func Parse(pomxmlPath string)], of result type (pointer to
    [MavenProject], [error]).  The pointer it returns is to a struct no
    one else holds; it is represented by the struct.  The deferred
    [f.Close()] has no part in what the call comes to and is left out. *)
Definition Parse (fs : FileSystem) (pomxmlPath : string) : outcome :=
  match fs pomxmlPath with
  | Err err =>
      Return None (Some ("can't open file " +:+ pomxmlPath +:+ ", " +:+ err))
  | Ok f =>
      match ReadAll f with
      | Err err =>
          Return None (Some ("can't read file " +:+ pomxmlPath +:+ ", " +:+ err))
      | Ok bytes =>
          match Unmarshal bytes MavenProject.zero with
          | Err err => Fatal ("unable to unmarshal pom file. Reason: " +:+ err)
          | Ok project => Return (Some project) None
          end
      end
  end.

(** The body of the [range] loop of [GetProperty], run over the pairs of
    the map in the order [order]. *)
Fixpoint scan (order : list (string * string)) (key : string) : string * bool :=
  match order with
  | [] => ("", false)
  | (k, v) :: rest =>
      if String.eqb (ToLower unicodeToLower k) (ToLower unicodeToLower key)
      then (v, true)
      else scan rest key
  end.

(** [func (mp *MavenProject) GetProperty(key string) (value string, exist bool)].
    Go leaves the order in which [range] visits a map unspecified, and it
    may change from one call to the next: a call returns [r] when some
    possible order makes the loop return [r].  The receiver is a project
    that [Parse] returned, so the pointer is not [nil] and is represented
    by the struct. *)
Definition GetProperty (mp : MavenProject.t) (key : string) (r : string * bool)
  : Prop :=
  exists order,
    rangeOrder (MavenProject.Properties mp) order /\ scan order key = r.

End Program.


(** ** Documents used in the examples *)

(** [<local> content </local>], without attributes or name space. *)
Definition startOf (local : string) : StartElement :=
  {| name := {| Space := ""; Local := local |}; attr := [] |}.

Definition elem (local : string) (content : list Node) : Node :=
  Element (startOf local) content.

(** [<local>s</local>] *)
Definition leaf (local s : string) : Node := elem local [CharData s].

Arguments unmarshalPath : simpl never.

(** ** Vocabulary for the statements *)

(** Fold a decoding step over a sequence of elements, stopping at the
    first error. *)
Fixpoint foldM {A} (step : storer A) (els : list (StartElement * list Node))
    (a : A) : result A :=
  match els with
  | [] => Ok a
  | (start, c) :: rest =>
      a' <-! step start c a;
      foldM step rest a'
  end.

(** The content of all child elements called [x], put end to end. *)
Definition inside (x : string) (content : list Node) : list Node :=
  concat (map snd (elementsNamed x content)).

(** The elements reached from [content] along [path]: those called
    [path]'s last name, inside elements called the name before, .... *)
Fixpoint elementsAt (path : list string) (content : list Node)
  : list (StartElement * list Node) :=
  match path with
  | [] => []
  | [x] => elementsNamed x content
  | x :: rest => elementsAt rest (inside x content)
  end.


(** The character data of the last child element called [x]; empty when
    there is none. *)
Definition childText (x : string) (content : list Node) : string :=
  match last (elementsNamed x content) with
  | Some (_, c) => chardata c
  | None => ""
  end.

(** A store leaves the part of the struct that [get] reads as it was. *)
Definition preserves {S A} (get : S -> A) (store : storer S) : Prop :=
  forall start c sv sv', store start c sv = Ok sv' -> get sv' = get sv.

(** [decodes unmarshal path get step]: whenever [unmarshal] succeeds, the
    part of the struct that [get] reads has received the elements on
    [path], one after the other in document order, each through [step],
    and nothing else. *)
Definition decodes {S A} (unmarshal : storer S) (path : list string)
    (get : S -> A) (step : storer A) : Prop :=
  forall start content sv sv',
    unmarshal start content sv = Ok sv' ->
    foldM step (elementsAt path content) (get sv) = Ok (get sv').

(** [reaches tinfo parents path store]: in the table [tinfo], below the
    path components [parents], the names of [path] lead to [store]. *)
Fixpoint reaches {S} (tinfo : typeInfo S) (parents path : list string)
    (store : storer S) : Prop :=
  match path with
  | [] => False
  | [x] => matchField tinfo parents x = Perfect store
  | x :: rest =>
      matchField tinfo parents x = Prefix (parents ++ [x])
      /\ reaches tinfo (parents ++ [x]) rest store
  end.

(** Every field of the table other than the one at [focus] leaves the part
    that [get] reads as it was. *)
Definition others {S A} (get : S -> A) (tinfo : typeInfo S)
    (focus : list string) : Prop :=
  Forall (fun f =>
            match fieldPath f with
            | None => True
            | Some (fps, fname, store) =>
                fps ++ [fname] = focus \/ preserves get store
            end) tinfo.

(** The element name a table accepts: any when it has no [XMLName] field
    or that field's tag is empty, the tag otherwise. *)
Definition accepts {S} (tinfo : typeInfo S) (x : string) : Prop :=
  match xmlname tinfo with
  | None => True
  | Some (tag, _) => tag = "" \/ tag = x
  end.

(** A store succeeds on every element called [x]. *)
Definition totalOn {S} (x : string) (store : storer S) : Prop :=
  forall start c sv, localOf start = x -> exists sv', store start c sv = Ok sv'.

(** The entry [propertyEntries] holds for a child element of
    [<properties>]. *)
Definition entryOf (el : StartElement * list Node) : propertyEntry.t :=
  {| propertyEntry.XMLName := name (fst el);
     propertyEntry.Value := chardata (snd el) |}.

(** *** Nil slices

    The zero value of a Go slice is [nil]: a slice that compares equal to
    [nil], has length 0, and over which [range] runs no iteration.  The
    decoder changes a slice in one way only, by appending one element, and
    an append yields a slice that is not [nil].  Among the slices of a
    decoded value the [nil] slice is therefore the one without elements. *)
Definition isNil {A} (s : list A) : bool :=
  match s with
  | [] => true
  | _ :: _ => false
  end.

(** *** Defaults

    [… _defaults c v]: the value [v], decoded from an element of content
    [c], has the empty string in every string field whose element is not
    in [c] and the [nil] slice, without elements, in every list field
    whose section is not in [c]; the members of each of its lists are
    paired, in order, with the elements of [c] they were decoded from, and
    have their own defaults with respect to those. *)











(** ** Sample files

    A handful of POM files, with what the lexical layer of [encoding/xml]
    makes of each, and a file system that holds them.  They serve as the
    concrete inputs of the examples.  [sampleTokens] is a table over these
    files only; any other input it treats like the empty input. *)

Definition minimalPom : string :=
  "<project><groupId>g</groupId><artifactId>a</artifactId><version>1.0</version></project>".

Definition minimalDoc : list Node :=
  [leaf "groupId" "g"; leaf "artifactId" "a"; leaf "version" "1.0"].

(** The [<project>] tag is never closed. *)
Definition unclosedPom : string := "<project><groupId>g</groupId>".

Definition profilesPom : string :=
  "<project><profiles><profile><id>p1</id></profile><profile><id>p2</id></profile></profiles></project>".

Definition profilesDoc : list Node :=
  [elem "profiles" [elem "profile" [leaf "id" "p1"];
                    elem "profile" [leaf "id" "p2"]]].

Definition javaPom : string :=
  "<project><properties><java.version>11</java.version></properties></project>".

Definition javaDoc : list Node :=
  [elem "properties" [leaf "java.version" "11"]].

Definition emptyPropertiesPom : string :=
  "<project><properties></properties></project>".

Definition emptyPropertiesDoc : list Node := [elem "properties" []].

(** A [<dependency>] with two exclusions. *)
Definition dependencyDoc : list Node :=
  [leaf "groupId" "org.example"; leaf "artifactId" "lib";
   elem "exclusions"
     [elem "exclusion" [leaf "groupId" "e1"; leaf "artifactId" "a1"];
      elem "exclusion" [leaf "groupId" "e2"; leaf "artifactId" "a2"]]].

Definition sampleTokens (data : list Byte.byte) : document :=
  let s := string_of_list_byte data in
  if String.eqb s minimalPom then Root (startOf "project") minimalDoc
  else if String.eqb s profilesPom then Root (startOf "project") profilesDoc
  else if String.eqb s javaPom then Root (startOf "project") javaDoc
  else if String.eqb s emptyPropertiesPom
  then Root (startOf "project") emptyPropertiesDoc
  else if String.eqb s unclosedPom
  then Truncated (startOf "project")
         "XML syntax error on line 1: unexpected EOF"
  else NoElement "EOF".

Definition fileOf (s : string) : result File :=
  Ok {| ReadAll := Ok (list_byte_of_string s) |}.

Definition sampleFS : FileSystem :=
  fun path =>
    if String.eqb path "pom.xml" then fileOf minimalPom
    else if String.eqb path "copy/pom.xml" then fileOf minimalPom
    else if String.eqb path "profiles.xml" then fileOf profilesPom
    else if String.eqb path "java.xml" then fileOf javaPom
    else if String.eqb path "empty.xml" then fileOf emptyPropertiesPom
    else if String.eqb path "unclosed.xml" then fileOf unclosedPom
    else if String.eqb path "unreadable.xml"
    then Ok {| ReadAll := Err "read unreadable.xml: input/output error" |}
    else Err ("open " +:+ path +:+ ": no such file or directory").

(** The project [minimalPom] decodes to. *)
Definition minimalProject : MavenProject.t :=
  MavenProject.set_Version "1.0"
    (MavenProject.set_ArtifactId "a"
       (MavenProject.set_GroupId "g"
          (MavenProject.set_XMLName {| Space := ""; Local := "project" |}
             MavenProject.zero))).

(** ** The declarative reading of the schema

    What the tags say a document means, written without the decoder: a
    string field is the text of the last element of its name, a list
    field has one member per element on its path, in document order, and a
    struct field is read from the content of all elements of its name put
    end to end.  The decoder is compared with this reading below. *)

Module Reading.

Definition parent (c : list Node) : Parent.t :=
  {| Parent.GroupId := childText "groupId" c;
     Parent.ArtifactId := childText "artifactId" c;
     Parent.Version := childText "version" c |}.

Definition exclusion (el : StartElement * list Node) : Exclusion.t :=
  {| Exclusion.XMLName := name el.1;
     Exclusion.GroupId := childText "groupId" el.2;
     Exclusion.ArtifactId := childText "artifactId" el.2 |}.

Definition dependency (el : StartElement * list Node) : Dependency.t :=
  {| Dependency.XMLName := name el.1;
     Dependency.GroupId := childText "groupId" el.2;
     Dependency.ArtifactId := childText "artifactId" el.2;
     Dependency.Version := childText "version" el.2;
     Dependency.Classifier := childText "classifier" el.2;
     Dependency.Type_ := childText "type" el.2;
     Dependency.Scope := childText "scope" el.2;
     Dependency.Exclusions :=
       map exclusion (elementsAt ["exclusions"; "exclusion"] el.2) |}.

Definition dependencyManagement (c : list Node) : DependencyManagement.t :=
  {| DependencyManagement.Dependencies :=
       map dependency (elementsAt ["dependencies"; "dependency"] c) |}.

Definition repository (el : StartElement * list Node) : Repository.t :=
  {| Repository.Id := childText "id" el.2;
     Repository.Name := childText "name" el.2;
     Repository.Url := childText "url" el.2 |}.

Definition pluginRepository (el : StartElement * list Node)
  : PluginRepository.t :=
  {| PluginRepository.Id := childText "id" el.2;
     PluginRepository.Name := childText "name" el.2;
     PluginRepository.Url := childText "url" el.2 |}.

Definition plugin (el : StartElement * list Node) : Plugin.t :=
  {| Plugin.XMLName := name el.1;
     Plugin.GroupId := childText "groupId" el.2;
     Plugin.ArtifactId := childText "artifactId" el.2;
     Plugin.Version := childText "version" el.2 |}.

Definition build (c : list Node) : Build.t :=
  {| Build.Plugins := map plugin (elementsAt ["plugins"; "plugin"] c) |}.

(** As the tag of [Profiles] has it, a profile is read from a
    [<profiles>] element. *)
Definition profile (el : StartElement * list Node) : Profile.t :=
  {| Profile.Id := childText "id" el.2;
     Profile.Build := build (inside "build" el.2) |}.

(** The children of [<properties>], assigned in document order to a map
    that starts out [nil]. *)
Definition properties (c : list Node) : Properties.t :=
  fold_left
    (fun props el => Properties.assign props (localOf el.1) (chardata el.2))
    (elements c) Properties.zero.

Definition project (start : StartElement) (c : list Node) : MavenProject.t :=
  {| MavenProject.XMLName := name start;
     MavenProject.ModelVersion := childText "modelVersion" c;
     MavenProject.Parent := parent (inside "parent" c);
     MavenProject.GroupId := childText "groupId" c;
     MavenProject.ArtifactId := childText "artifactId" c;
     MavenProject.Version := childText "version" c;
     MavenProject.Packaging := childText "packaging" c;
     MavenProject.Name := childText "name" c;
     MavenProject.Repositories :=
       map repository (elementsAt ["repositories"; "repository"] c);
     MavenProject.Properties := properties (inside "properties" c);
     MavenProject.DependencyManagement :=
       dependencyManagement (inside "dependencyManagement" c);
     MavenProject.Dependencies :=
       map dependency (elementsAt ["dependencies"; "dependency"] c);
     MavenProject.Profiles := map profile (elementsNamed "profiles" c);
     MavenProject.Build := build (inside "build" c);
     MavenProject.PluginRepositories :=
       map pluginRepository
         (elementsAt ["pluginRepositories"; "pluginRepository"] c) |}.

End Reading.

(** *** What the decoder does not look at *)

(** The first path component of every field that takes part in path
    matching: the names of the child elements a struct has a use for. *)
Fixpoint fieldHeads {S} (tinfo : typeInfo S) : list string :=
  match tinfo with
  | [] => []
  | f :: rest =>
      match fieldPath f with
      | Some (fps, fname, _) => hd fname fps :: fieldHeads rest
      | None => fieldHeads rest
      end
  end.

(** A node is a child element called by one of [names]. *)
Definition elementIn (names : list string) (n : Node) : bool :=
  match n with
  | Element start _ => existsb (String.eqb (localOf start)) names
  | _ => false
  end.

(** A start-element token with its [Attr] field emptied.  The name is
    kept as the lexer resolved it, name space included: this is a change
    of the token, not of the document text, where deleting an [xmlns]
    declaration would change the name spaces of the elements under it. *)
Definition clearAttr (start : StartElement) : StartElement :=
  {| name := name start; attr := [] |}.

(** The same, for every start element inside a node. *)
Fixpoint clearAttrs (n : Node) : Node :=
  match n with
  | Element start content => Element (clearAttr start) (map clearAttrs content)
  | CharData d => CharData d
  | Comment t => Comment t
  | ProcInst t i => ProcInst t i
  | Directive t => Directive t
  end.

(** A document with a root element that carries a name space and
    attributes, a comment, white space, and sections the schema does not
    know. *)
Definition decoratedDoc : list Node :=
  [CharData " "; Comment " build file ";
   Element {| name := {| Space := "http://maven.apache.org/POM/4.0.0";
                         Local := "groupId" |};
              attr := [{| AttrName := {| Space := ""; Local := "lang" |};
                          AttrValue := "en" |}] |}
     [CharData "g"];
   elem "description" [CharData "a sample"];
   leaf "artifactId" "a"; leaf "version" "1.0";
   elem "licenses" [elem "license" [leaf "name" "MIT"]]].

(** A document whose properties come in two elements and repeat a name. *)
Definition propertiesDoc : list Node :=
  [elem "properties" [leaf "java.version" "8"; leaf "encoding" "UTF-8"];
   elem "properties" [leaf "java.version" "11"]].

(** * Properties of the tag interpreter *)

Lemma bind_Ok {A B} (r : result A) (k : A -> result B) b :
  bind r k = Ok b -> exists a, r = Ok a /\ k a = Ok b.
Proof. destruct r as [a|e]; simpl; [eauto | discriminate]. Qed.

Tactic Notation "bind_inv" hyp(H) "as" ident(a) ident(Ha) :=
  apply bind_Ok in H; destruct H as (a & Ha & H).

(** Nested induction over [Node]: the content of an element satisfies the
    property node by node. *)
Lemma Node_forall_ind (P : Node -> Prop) :
  (forall start content, Forall P content -> P (Element start content)) ->
  (forall data, P (CharData data)) ->
  (forall text, P (Comment text)) ->
  (forall target inst, P (ProcInst target inst)) ->
  (forall text, P (Directive text)) ->
  forall n, P n.
Proof.
  intros HE HC HK HP HD.
  fix IH 1. intros [start content|data|text|target inst|text].
  - apply HE. induction content as [|c content IHc]; constructor.
    + apply IH.
    + exact IHc.
  - apply HC.
  - apply HK.
  - apply HP.
  - apply HD.
Qed.

Lemma hasPrefix_same_length (ps fps : list string) :
  hasPrefix ps fps = true -> length fps = length ps -> fps = ps.
Proof.
  revert fps. induction ps as [|p ps IH]; intros [|q fps]; simpl; try done.
  intros [Hpq Hrest]%andb_prop Hlen.
  apply String.eqb_eq in Hpq. subst q. f_equal. apply IH; auto.
Qed.

Lemma hasPrefix_firstn (ps fps : list string) (local : string) :
  hasPrefix ps fps = true -> length ps < length fps ->
  nth (length ps) fps "" = local ->
  firstn (length ps + 1) fps = ps ++ [local].
Proof.
  revert fps. induction ps as [|p ps IH]; intros [|q fps]; simpl; try lia.
  - intros _ _ <-. by destruct fps.
  - intros [Hpq Hrest]%andb_prop Hlen Hnth.
    apply String.eqb_eq in Hpq. subst q. f_equal. apply IH; auto with lia.
Qed.

Lemma foldM_app {A} (step : storer A) els1 els2 a :
  foldM step (els1 ++ els2) a = (a' <-! foldM step els1 a; foldM step els2 a').
Proof.
  revert a. induction els1 as [|[start c] els1 IH]; simpl; intros a; [done|].
  destruct (step start c a); simpl; auto.
Qed.

Lemma elementsNamed_app x c1 c2 :
  elementsNamed x (c1 ++ c2) = elementsNamed x c1 ++ elementsNamed x c2.
Proof.
  induction c1 as [|t c1 IH]; simpl; [done|].
  destruct t as [start c| | | |]; auto.
  destruct (String.eqb (localOf start) x); simpl; by rewrite ?IH.
Qed.

Section Interpreter.

Context {S : Type}.
Implicit Types (tinfo : typeInfo S) (sv : S) (parents : list string).

Lemma unmarshalPath_Element tinfo parents start content sv :
  unmarshalPath tinfo parents (Element start content) sv
  = match matchField tinfo parents (localOf start) with
    | Perfect store =>
        sv' <-! store start content sv;
        Ok (true, sv')
    | Prefix parents' =>
        sv' <-! pathLoop (unmarshalPath tinfo parents') content sv;
        Ok (true, sv')
    | NoMatch => Ok (false, sv)
    end.
Proof. reflexivity. Qed.

(** What [matchField] returns comes from a field of the table. *)
Lemma matchField_Perfect tinfo parents local store :
  matchField tinfo parents local = Perfect store ->
  exists f, In f tinfo /\ fieldPath f = Some (parents, local, store).
Proof.
  induction tinfo as [|f tinfo IH]; simpl; [done|].
  destruct (fieldPath f) as [[[fps fname] st]|] eqn:Hf.
  - destruct (hasPrefix parents fps) eqn:Hpre; simpl.
    + destruct (Nat.eqb (length fps) (length parents)) eqn:Hlen; simpl.
      * destruct (String.eqb fname local) eqn:Hname.
        -- intros [= <-]. exists f. split; [by left|].
           apply String.eqb_eq in Hname. apply Nat.eqb_eq in Hlen.
           by rewrite Hf, (hasPrefix_same_length parents fps), Hname.
        -- destruct (_ && _); [done|].
           intros (g & ? & ?)%IH. exists g. split; [by right|done].
      * destruct (_ && _); [done|].
        intros (g & ? & ?)%IH. exists g. split; [by right|done].
    + intros (g & ? & ?)%IH. exists g. split; [by right|done].
  - intros (g & ? & ?)%IH. exists g. split; [by right|done].
Qed.

Lemma matchField_Prefix tinfo parents local parents' :
  matchField tinfo parents local = Prefix parents' ->
  parents' = parents ++ [local].
Proof.
  induction tinfo as [|f tinfo IH]; simpl; [done|].
  destruct (fieldPath f) as [[[fps fname] st]|]; [|done].
  destruct (hasPrefix parents fps) eqn:Hpre; simpl; [|done].
  destruct (Nat.eqb (length fps) (length parents) && String.eqb fname local); [done|].
  destruct (Nat.ltb (length parents) (length fps)) eqn:Hlen; simpl; [|done].
  destruct (String.eqb (nth (length parents) fps "") local) eqn:Hnth; [|done].
  intros [= <-]. apply Nat.ltb_lt in Hlen. apply String.eqb_eq in Hnth.
  by apply hasPrefix_firstn.
Qed.

(** *** Frame: fields off the path of an element are left alone *)

Section Frame.

Context {A : Type} (get : S -> A) (tinfo : typeInfo S) (focus : list string).

Hypothesis Hothers : others get tinfo focus.

Lemma others_preserves f fps fname store :
  In f tinfo -> fieldPath f = Some (fps, fname, store) ->
  fps ++ [fname] <> focus -> preserves get store.
Proof.
  intros Hin Hf Hne. unfold others in Hothers.
  rewrite Forall_forall in Hothers. apply list_elem_of_In in Hin.
  specialize (Hothers f Hin). rewrite Hf in Hothers. by destruct Hothers.
Qed.

Lemma unmarshalPath_frame t :
  forall parents sv r,
    (forall start c, t = Element start c ->
       ~ (parents ++ [localOf start]) `prefix_of` focus) ->
    unmarshalPath tinfo parents t sv = Ok r -> get (snd r) = get sv.
Proof.
  induction t as [start content IH| | | |] using Node_forall_ind;
    intros parents sv r Hoff; try by intros [= <-].
  rewrite unmarshalPath_Element.
  specialize (Hoff start content eq_refl).
  destruct (matchField tinfo parents (localOf start)) as [store|parents'|] eqn:Hm.
  - apply matchField_Perfect in Hm as (f & Hin & Hf).
    intros H. bind_inv H as sv' Hst. injection H as <-. simpl.
    eapply (others_preserves f); eauto.
    intros Heq. apply Hoff. by rewrite Heq.
  - apply matchField_Prefix in Hm as ->.
    intros H. bind_inv H as sv' Hloop. injection H as <-. simpl.
    revert sv Hloop. induction IH as [|t content IHt _ IHcontent]; simpl; intros sv.
    + by intros [= <-].
    + destruct t as [start' c'| | | |]; auto.
      intros H. bind_inv H as r Hr.
      rewrite (IHcontent _ H). eapply IHt; [|exact Hr].
      intros ? ? [= <- <-] [k Hk]. apply Hoff.
      exists ([localOf start'] ++ k). by rewrite Hk, <- !app_assoc.
  - by intros [= <-].
Qed.

Lemma pathLoop_frame parents content :
  forall sv sv',
    (forall start c, In (Element start c) content ->
       ~ (parents ++ [localOf start]) `prefix_of` focus) ->
    pathLoop (unmarshalPath tinfo parents) content sv = Ok sv' ->
    get sv' = get sv.
Proof.
  induction content as [|t content IH]; simpl; intros sv sv' Hoff.
  - by intros [= <-].
  - destruct t as [start c| | | |]; try (apply IH; intros start' c' Hin; apply (Hoff start' c'); by right).
    intros H. bind_inv H as r Hr.
    rewrite (IH _ _ (fun start c Hin => Hoff start c (or_intror Hin)) H).
    eapply unmarshalPath_frame; [|exact Hr].
    intros ? ? [= <- <-]. apply (Hoff start c). by left.
Qed.

Lemma structLoop_frame content :
  forall sv sv',
    saveAny tinfo = None ->
    (forall start c, In (Element start c) content ->
       ~ [localOf start] `prefix_of` focus) ->
    structLoop tinfo content sv = Ok sv' -> get sv' = get sv.
Proof.
  intros sv sv' Hany. revert sv sv'.
  induction content as [|t content IH]; simpl; intros sv sv' Hoff.
  - by intros [= <-].
  - destruct t as [start c| | | |]; try (apply IH; intros start' c' Hin; apply (Hoff start' c'); by right).
    intros H. bind_inv H as r Hr. rewrite Hany in H.
    assert (structLoop tinfo content (snd r) = Ok sv') as H'
      by (by destruct (fst r)).
    rewrite (IH _ _ (fun start c Hin => Hoff start c (or_intror Hin)) H').
    eapply unmarshalPath_frame; [|exact Hr].
    intros ? ? [= <- <-]. apply (Hoff start c). by left.
Qed.

End Frame.

(** *** Projection: what a field receives is the fold of its own
    decoding step over the elements on its path *)

Section Projection.

Context {A : Type} (get : S -> A) (tinfo : typeInfo S).
Context (parents : list string) (x : string) (step : storer A).

Hypothesis on_x :
  forall start c sv r,
    localOf start = x ->
    unmarshalPath tinfo parents (Element start c) sv = Ok r ->
    step start c (get sv) = Ok (get (snd r)).

Hypothesis off_x :
  forall start c sv r,
    localOf start <> x ->
    unmarshalPath tinfo parents (Element start c) sv = Ok r ->
    get (snd r) = get sv.

Lemma pathLoop_project content :
  forall sv sv',
    pathLoop (unmarshalPath tinfo parents) content sv = Ok sv' ->
    foldM step (elementsNamed x content) (get sv) = Ok (get sv').
Proof.
  induction content as [|t content IH]; simpl; intros sv sv'.
  - by intros [= <-].
  - destruct t as [start c| | | |]; auto.
    intros H. bind_inv H as r Hr.
    destruct (String.eqb_spec (localOf start) x) as [Hx|Hx]; simpl.
    + rewrite (on_x _ _ _ _ Hx Hr). simpl. by apply IH.
    + rewrite <- (off_x _ _ _ _ Hx Hr). by apply IH.
Qed.

End Projection.

Lemma structLoop_pathLoop tinfo content sv :
  saveAny tinfo = None ->
  structLoop tinfo content sv = pathLoop (unmarshalPath tinfo []) content sv.
Proof.
  intros Hany. revert sv.
  induction content as [|t content IH]; simpl; intros sv; [done|].
  destruct t as [start c| | | |]; auto.
  destruct (unmarshalPath tinfo [] (Element start c) sv) as [r|e]; simpl; [|done].
  rewrite Hany. by destruct (fst r).
Qed.

Lemma elementsAt_cons x y path content :
  elementsAt (x :: y :: path) content = elementsAt (y :: path) (inside x content).
Proof. reflexivity. Qed.

Lemma inside_cons_Element x start c content :
  inside x (Element start c :: content)
  = if String.eqb (localOf start) x then c ++ inside x content
    else inside x content.
Proof. unfold inside. simpl. by destruct (String.eqb _ _). Qed.

Lemma inside_app x c1 c2 : inside x (c1 ++ c2) = inside x c1 ++ inside x c2.
Proof. unfold inside. by rewrite elementsNamed_app, map_app, concat_app. Qed.

Lemma elementsAt_app path :
  forall c1 c2, elementsAt path (c1 ++ c2) = elementsAt path c1 ++ elementsAt path c2.
Proof.
  induction path as [|x [|y path] IH]; intros c1 c2; [done| |].
  - apply elementsNamed_app.
  - by rewrite !elementsAt_cons, inside_app, IH.
Qed.

Lemma elementsAt_nil path : elementsAt path [] = [].
Proof. induction path as [|x [|y path] IH]; auto. Qed.

Lemma foldM_inside {A} (step : storer A) x path content :
  forall a,
    foldM (fun _ c a => foldM step (elementsAt path c) a) (elementsNamed x content) a
    = foldM step (elementsAt path (inside x content)) a.
Proof.
  unfold inside.
  induction (elementsNamed x content) as [|[start c] els IH]; simpl; intros a.
  - by rewrite elementsAt_nil.
  - rewrite elementsAt_app, foldM_app.
    destruct (foldM step (elementsAt path c) a); simpl; auto.
Qed.

(** *** A field receives exactly the elements on its path *)

Section Field.

Context {A : Type} (get : S -> A) (set : A -> S -> S) (unmarshal : storer A).
Context (tinfo : typeInfo S).

Hypothesis get_set : forall a sv, get (set a sv) = a.

Lemma pathLoop_decodes path :
  forall parents content sv sv',
    path <> [] ->
    reaches tinfo parents path (into get set unmarshal) ->
    others get tinfo (parents ++ path) ->
    pathLoop (unmarshalPath tinfo parents) content sv = Ok sv' ->
    foldM unmarshal (elementsAt path content) (get sv) = Ok (get sv').
Proof.
  induction path as [|x [|y path] IH]; intros parents content sv sv' Hne Hr Ho;
    [done| |].
  - simpl in Hr. apply pathLoop_project.
    + intros start c sv0 r Hx H. rewrite unmarshalPath_Element, Hx, Hr in H.
      bind_inv H as sv1 H1. injection H as <-. unfold into in H1.
      bind_inv H1 as a Ha. injection H1 as <-. simpl. by rewrite get_set.
    + intros start c sv0 r Hx. eapply unmarshalPath_frame; [exact Ho|].
      intros ? ? [= <- <-] Hpre. apply prefix_app_inv in Hpre.
      destruct Hpre as [k Hk]. by injection Hk.
  - destruct Hr as [Hm Hr]. rewrite elementsAt_cons, <- foldM_inside.
    apply pathLoop_project.
    + intros start c sv0 r Hx H. rewrite unmarshalPath_Element, Hx, Hm in H.
      bind_inv H as sv1 H1. injection H as <-. simpl.
      eapply IH; [done|exact Hr| |exact H1]. by rewrite <- app_assoc.
    + intros start c sv0 r Hx. eapply unmarshalPath_frame; [exact Ho|].
      intros ? ? [= <- <-] Hpre. apply prefix_app_inv in Hpre.
      destruct Hpre as [k Hk]. by injection Hk.
Qed.

Lemma unmarshalStruct_decodes path :
  path <> [] ->
  reaches tinfo [] path (into get set unmarshal) ->
  others get tinfo path ->
  saveAny tinfo = None ->
  saveData tinfo = None ->
  (forall tag setn n sv, xmlname tinfo = Some (tag, setn) -> get (setn n sv) = get sv) ->
  decodes (unmarshalStruct tinfo) path get unmarshal.
Proof.
  intros Hne Hr Ho Hany Hdata Hname start content sv sv' H.
  unfold unmarshalStruct in H. rewrite Hdata in H.
  bind_inv H as sv1 H1. bind_inv H as sv2 H2. injection H as <-.
  rewrite structLoop_pathLoop in H2 by done.
  apply (pathLoop_decodes path []) in H2; [|done..].
  replace (get sv) with (get sv1); [done|].
  unfold checkName in H1. destruct (xmlname tinfo) as [[tag setn]|] eqn:Hx.
  - destruct (_ && _); [done|]. injection H1 as <-. by eapply Hname.
  - by injection H1 as <-.
Qed.

End Field.

(** *** Totality: a table of stores that succeed on the elements they
    are named after never fails *)

Section Totality.

Context (tinfo : typeInfo S).

Hypothesis total :
  forall f fps fname store,
    In f tinfo -> fieldPath f = Some (fps, fname, store) -> totalOn fname store.

Lemma unmarshalPath_total t :
  forall parents sv, exists r, unmarshalPath tinfo parents t sv = Ok r.
Proof.
  induction t as [start content IH| | | |] using Node_forall_ind;
    intros parents sv; try by (eexists; reflexivity).
  rewrite unmarshalPath_Element.
  destruct (matchField tinfo parents (localOf start)) as [store|parents'|] eqn:Hm;
    eauto.
  - apply matchField_Perfect in Hm as (f & Hin & Hf).
    destruct (total f _ _ _ Hin Hf start content sv eq_refl) as [sv' ->].
    simpl. eauto.
  - assert (exists sv', pathLoop (unmarshalPath tinfo parents') content sv = Ok sv')
      as [sv' ->]; [|simpl; eauto].
    revert sv. induction IH as [|t content IHt _ IHcontent]; simpl; intros sv; eauto.
    destruct t as [start' c'| | | |]; auto.
    destruct (IHt parents' sv) as [r ->]. simpl. apply IHcontent.
Qed.

Lemma structLoop_total content sv :
  saveAny tinfo = None ->
  exists sv', structLoop tinfo content sv = Ok sv'.
Proof.
  intros Hany. revert sv.
  induction content as [|t content IH]; simpl; intros sv; eauto.
  destruct t as [start c| | | |]; auto.
  destruct (unmarshalPath_total (Element start c) [] sv) as [r Hr].
  rewrite Hr, Hany. simpl. by destruct (fst r).
Qed.

Lemma unmarshalStruct_total x :
  saveAny tinfo = None -> accepts tinfo x -> totalOn x (unmarshalStruct tinfo).
Proof.
  intros Hany Hacc start c sv Hx. unfold unmarshalStruct.
  assert (exists sv1, checkName tinfo start sv = Ok sv1) as [sv1 ->].
  { unfold checkName, accepts in *.
    destruct (xmlname tinfo) as [[tag setn]|]; [|eauto].
    destruct Hacc as [->| ->]; [simpl; eauto|].
    rewrite Hx, String.eqb_refl, andb_false_r. eauto. }
  simpl. destruct (structLoop_total c sv1 Hany) as [sv2 ->]. simpl. eauto.
Qed.

End Totality.

End Interpreter.

Lemma totalOn_into {S A} x (get : S -> A) (set : A -> S -> S) unmarshal :
  totalOn x unmarshal -> totalOn x (into get set unmarshal).
Proof.
  intros H start c sv Hx. unfold into.
  destruct (H start c (get sv) Hx) as [a ->]. simpl. eauto.
Qed.

Lemma totalOn_unmarshalString x : totalOn x unmarshalString.
Proof. intros start c sv _. unfold unmarshalString. eauto. Qed.

Lemma totalOn_unmarshalSlice {A} x (zero : A) unmarshal :
  totalOn x unmarshal -> totalOn x (unmarshalSlice zero unmarshal).
Proof.
  intros H start c sv Hx. unfold unmarshalSlice.
  destruct (H start c zero Hx) as [a ->]. simpl. eauto.
Qed.

Lemma preserves_into {S A B} (get : S -> B) (get' : S -> A) (set' : A -> S -> S)
    unmarshal :
  (forall a sv, get (set' a sv) = get sv) ->
  preserves get (into get' set' unmarshal).
Proof.
  intros Hset start c sv sv' H. unfold into in H.
  bind_inv H as a Ha. injection H as <-. apply Hset.
Qed.

(** *** Folds of the decoding steps of strings and slices *)

Lemma foldM_unmarshalString els a :
  foldM unmarshalString els a
  = Ok (match last els with
        | Some (_, c) => chardata c
        | None => a
        end).
Proof.
  revert a. induction els as [|[start c] els IH]; intros a; [done|].
  rewrite last_cons. simpl. rewrite IH. by destruct (last els) as [[]|].
Qed.

Lemma foldM_unmarshalSlice {A} (zero : A) (unmarshal : storer A) els :
  forall v v',
    foldM (unmarshalSlice zero unmarshal) els v = Ok v' ->
    exists xs,
      v' = v ++ xs /\
      Forall2 (fun el x => unmarshal (fst el) (snd el) zero = Ok x) els xs.
Proof.
  induction els as [|[start c] els IH]; simpl; intros v v'.
  - intros [= <-]. exists []. split; [by rewrite app_nil_r|constructor].
  - intros H. bind_inv H as v1 Hv1. unfold unmarshalSlice in Hv1.
    bind_inv Hv1 as x Hx. injection Hv1 as <-.
    destruct (IH _ _ H) as (xs & -> & Hxs).
    exists (x :: xs). split; [by rewrite <- app_assoc|by constructor].
Qed.

(** * The schema, field by field *)

Local Arguments String.eqb : simpl never.

Ltac solve_others :=
  unfold others;
  repeat (apply Forall_cons; split);
  try apply Forall_nil;
  simpl;
  first [ exact I
        | left; reflexivity
        | right; apply preserves_into; reflexivity ].

Ltac solve_reaches := simpl; repeat split; reflexivity.

Ltac solve_decodes :=
  eapply unmarshalStruct_decodes;
  [ | | solve_reaches | .. ];
  [ reflexivity
  | discriminate
  | solve_others
  | reflexivity
  | reflexivity
  | first [ discriminate | intros ? ? ? ? [= <- <-]; reflexivity ] ].

Create HintDb total.

#[local] Hint Resolve totalOn_unmarshalString totalOn_unmarshalSlice : total.

Ltac solve_total :=
  apply unmarshalStruct_total;
  [ intros f fps fname store Hin Hf; simpl in Hin;
    repeat (destruct Hin as [<-|Hin]); try done; simpl in Hf;
    try discriminate; injection Hf as <- <- <-;
    apply totalOn_into; auto with total
  | reflexivity
  | unfold accepts; simpl; auto ].

Lemma Parent_decodes :
  decodes Parent.unmarshal ["groupId"] Parent.GroupId unmarshalString
  /\ decodes Parent.unmarshal ["artifactId"] Parent.ArtifactId unmarshalString
  /\ decodes Parent.unmarshal ["version"] Parent.Version unmarshalString.
Proof. repeat split; solve_decodes. Qed.

Lemma Repository_decodes :
  decodes Repository.unmarshal ["id"] Repository.Id unmarshalString
  /\ decodes Repository.unmarshal ["name"] Repository.Name unmarshalString
  /\ decodes Repository.unmarshal ["url"] Repository.Url unmarshalString.
Proof. repeat split; solve_decodes. Qed.

Lemma PluginRepository_decodes :
  decodes PluginRepository.unmarshal ["id"] PluginRepository.Id unmarshalString
  /\ decodes PluginRepository.unmarshal ["name"] PluginRepository.Name unmarshalString
  /\ decodes PluginRepository.unmarshal ["url"] PluginRepository.Url unmarshalString.
Proof. repeat split; solve_decodes. Qed.

Lemma Exclusion_decodes :
  decodes Exclusion.unmarshal ["groupId"] Exclusion.GroupId unmarshalString
  /\ decodes Exclusion.unmarshal ["artifactId"] Exclusion.ArtifactId unmarshalString.
Proof. repeat split; solve_decodes. Qed.

Lemma Plugin_decodes :
  decodes Plugin.unmarshal ["groupId"] Plugin.GroupId unmarshalString
  /\ decodes Plugin.unmarshal ["artifactId"] Plugin.ArtifactId unmarshalString
  /\ decodes Plugin.unmarshal ["version"] Plugin.Version unmarshalString.
Proof. repeat split; solve_decodes. Qed.

Lemma Build_decodes :
  decodes Build.unmarshal ["plugins"; "plugin"] Build.Plugins
    (unmarshalSlice Plugin.zero Plugin.unmarshal).
Proof. solve_decodes. Qed.

Lemma Profile_decodes :
  decodes Profile.unmarshal ["id"] Profile.Id unmarshalString
  /\ decodes Profile.unmarshal ["build"] Profile.Build Build.unmarshal.
Proof. repeat split; solve_decodes. Qed.

Lemma Dependency_decodes :
  decodes Dependency.unmarshal ["groupId"] Dependency.GroupId unmarshalString
  /\ decodes Dependency.unmarshal ["artifactId"] Dependency.ArtifactId unmarshalString
  /\ decodes Dependency.unmarshal ["version"] Dependency.Version unmarshalString
  /\ decodes Dependency.unmarshal ["classifier"] Dependency.Classifier unmarshalString
  /\ decodes Dependency.unmarshal ["type"] Dependency.Type_ unmarshalString
  /\ decodes Dependency.unmarshal ["scope"] Dependency.Scope unmarshalString
  /\ decodes Dependency.unmarshal ["exclusions"; "exclusion"] Dependency.Exclusions
       (unmarshalSlice Exclusion.zero Exclusion.unmarshal).
Proof. repeat split; solve_decodes. Qed.

Lemma DependencyManagement_decodes :
  decodes DependencyManagement.unmarshal ["dependencies"; "dependency"]
    DependencyManagement.Dependencies
    (unmarshalSlice Dependency.zero Dependency.unmarshal).
Proof. solve_decodes. Qed.

Lemma MavenProject_decodes :
  decodes MavenProject.unmarshal ["modelVersion"] MavenProject.ModelVersion unmarshalString
  /\ decodes MavenProject.unmarshal ["parent"] MavenProject.Parent Parent.unmarshal
  /\ decodes MavenProject.unmarshal ["groupId"] MavenProject.GroupId unmarshalString
  /\ decodes MavenProject.unmarshal ["artifactId"] MavenProject.ArtifactId unmarshalString
  /\ decodes MavenProject.unmarshal ["version"] MavenProject.Version unmarshalString
  /\ decodes MavenProject.unmarshal ["packaging"] MavenProject.Packaging unmarshalString
  /\ decodes MavenProject.unmarshal ["name"] MavenProject.Name unmarshalString
  /\ decodes MavenProject.unmarshal ["repositories"; "repository"]
       MavenProject.Repositories
       (unmarshalSlice Repository.zero Repository.unmarshal)
  /\ decodes MavenProject.unmarshal ["properties"] MavenProject.Properties
       Properties.unmarshal
  /\ decodes MavenProject.unmarshal ["dependencyManagement"]
       MavenProject.DependencyManagement DependencyManagement.unmarshal
  /\ decodes MavenProject.unmarshal ["dependencies"; "dependency"]
       MavenProject.Dependencies
       (unmarshalSlice Dependency.zero Dependency.unmarshal)
  /\ decodes MavenProject.unmarshal ["profiles"] MavenProject.Profiles
       (unmarshalSlice Profile.zero Profile.unmarshal)
  /\ decodes MavenProject.unmarshal ["build"] MavenProject.Build Build.unmarshal
  /\ decodes MavenProject.unmarshal ["pluginRepositories"; "pluginRepository"]
       MavenProject.PluginRepositories
       (unmarshalSlice PluginRepository.zero PluginRepository.unmarshal).
Proof. repeat split; solve_decodes. Qed.

(** *** Consequences of [decodes] *)


Lemma decodes_string {S} (unmarshal : storer S) x (get : S -> string)
    start content sv sv' :
  decodes unmarshal [x] get unmarshalString ->
  unmarshal start content sv = Ok sv' ->
  get sv' = match last (elementsNamed x content) with
            | Some (_, c) => chardata c
            | None => get sv
            end.
Proof.
  intros Hd H. apply Hd in H. simpl in H.
  rewrite foldM_unmarshalString in H. by injection H.
Qed.

Lemma decodes_slice {S A} (unmarshal : storer S) path (get : S -> list A)
    zero unmarshalA start content sv sv' :
  decodes unmarshal path get (unmarshalSlice zero unmarshalA) ->
  unmarshal start content sv = Ok sv' ->
  exists xs,
    get sv' = get sv ++ xs /\
    Forall2 (fun el x => unmarshalA (fst el) (snd el) zero = Ok x)
      (elementsAt path content) xs.
Proof. intros Hd H. apply Hd in H. by apply foldM_unmarshalSlice in H. Qed.

(** A field of a field: the paths are put end to end. *)
Lemma decodes_compose {S A B} (unmarshal : storer S) x (get1 : S -> A)
    (step1 : storer A) y path (get2 : A -> B) (step2 : storer B) :
  decodes unmarshal [x] get1 step1 ->
  decodes step1 (y :: path) get2 step2 ->
  decodes unmarshal (x :: y :: path) (fun sv => get2 (get1 sv)) step2.
Proof.
  intros H1 H2 start content sv sv' H. apply H1 in H. simpl in H.
  rewrite elementsAt_cons, <- foldM_inside.
  remember (y :: path) as q eqn:Hq. clear Hq.
  revert H. generalize (get1 sv) as a. generalize (get1 sv') as a'.
  induction (elementsNamed x content) as [|[start' c'] els IH]; simpl; intros a' a.
  - by intros [= <-].
  - intros H. bind_inv H as a1 Ha1. apply H2 in Ha1. rewrite Ha1. simpl.
    by apply IH.
Qed.

(** *** The children of [<properties>] *)

(** The entry the decoder makes of one child element. *)
Lemma propertyEntry_unmarshal start c sv :
  propertyEntry.unmarshal start c sv
  = Ok {| propertyEntry.XMLName := name start;
          propertyEntry.Value := chardata c |}.
Proof.
  unfold propertyEntry.unmarshal, unmarshalStruct. simpl.
  assert (forall sv1, structLoop propertyEntry.info c sv1 = Ok sv1) as ->; [|done].
  induction c as [|t c IH]; intros sv1; simpl; [done|].
  by destruct t.
Qed.

Lemma propertyEntries_structLoop c :
  forall sv,
    structLoop propertyEntries.info c sv
    = Ok {| propertyEntries.Entries :=
              propertyEntries.Entries sv ++ map entryOf (elements c) |}.
Proof.
  induction c as [|t c IH]; intros [entries]; simpl.
  - by rewrite app_nil_r.
  - destruct t as [start c'| | | |]; try apply IH.
    rewrite unmarshalPath_Element. simpl.
    destruct (String.eqb "Entries" (localOf start)); simpl;
      unfold into, unmarshalSlice; rewrite propertyEntry_unmarshal; simpl;
      rewrite IH; simpl; by rewrite <- app_assoc.
Qed.

Lemma UnmarshalXML_fold props start content :
  Properties.UnmarshalXML props start content
  = Ok (fold_left
          (fun props el => Properties.assign props (localOf el.1) (chardata el.2))
          (elements content) props).
Proof.
  unfold Properties.UnmarshalXML, propertyEntries.unmarshal, unmarshalStruct.
  simpl. rewrite propertyEntries_structLoop. simpl. f_equal.
  generalize (elements content) as els. intros els. revert props.
  induction els as [|el els IH]; intros props; simpl; [done|]. apply IH.
Qed.

(** *** No element of the schema makes its decoder fail

    The only error the tag interpreter itself can raise is the name test
    of a struct with an [XMLName] tag, and every such struct but the root
    is reached through a path that ends in that very name. *)

Lemma Parent_total x : totalOn x Parent.unmarshal.
Proof. solve_total. Qed.

Lemma Repository_total x : totalOn x Repository.unmarshal.
Proof. solve_total. Qed.

Lemma PluginRepository_total x : totalOn x PluginRepository.unmarshal.
Proof. solve_total. Qed.

Lemma Exclusion_total : totalOn "exclusion" Exclusion.unmarshal.
Proof. solve_total. Qed.

Lemma Plugin_total : totalOn "plugin" Plugin.unmarshal.
Proof. solve_total. Qed.

#[local] Hint Resolve Parent_total Repository_total PluginRepository_total
  Exclusion_total Plugin_total : total.

Lemma Build_total x : totalOn x Build.unmarshal.
Proof. solve_total. Qed.

Lemma Dependency_total : totalOn "dependency" Dependency.unmarshal.
Proof. solve_total. Qed.

#[local] Hint Resolve Build_total Dependency_total : total.

Lemma DependencyManagement_total x : totalOn x DependencyManagement.unmarshal.
Proof. solve_total. Qed.

Lemma Profile_total x : totalOn x Profile.unmarshal.
Proof. solve_total. Qed.

Lemma Properties_total x : totalOn x Properties.unmarshal.
Proof.
  intros start c props _. unfold Properties.unmarshal.
  rewrite UnmarshalXML_fold. eauto.
Qed.

#[local] Hint Resolve DependencyManagement_total Profile_total Properties_total
  : total.

Lemma MavenProject_total : totalOn "project" MavenProject.unmarshal.
Proof. solve_total. Qed.

(** * The specification, statement by statement *)

(** ** Properties *)

Lemma assign_entries props key value :
  Properties.entries (Properties.assign props key value)
  = <[key := value]> (Properties.entries props).
Proof. by destruct props. Qed.

Lemma fold_assign_lookup content :
  forall (props : Properties.t) (k : string),
    Properties.entries
      (fold_left
         (fun props el => Properties.assign props (localOf el.1) (chardata el.2))
         (elements content) props) !! k
    = match last (elementsNamed k content) with
      | Some (_, c) => Some (chardata c)
      | None => Properties.entries props !! k
      end.
Proof.
  induction content as [|t content IH]; intros props k; simpl; [done|].
  destruct t as [start c| | | |]; auto.
  simpl. rewrite IH, assign_entries.
  destruct (String.eqb_spec (localOf start) k) as [->|Hne].
  - rewrite last_cons, lookup_insert_eq.
    by destruct (last (elementsNamed k content)) as [[]|].
  - by rewrite lookup_insert_ne.
Qed.

Lemma elements_elementsNamed start c content :
  In (start, c) (elements content) ->
  In (start, c) (elementsNamed (localOf start) content).
Proof.
  induction content as [|t content IH]; simpl; [done|].
  destruct t as [start' c'| | | |]; auto.
  intros [[= -> ->]|Hin].
  - rewrite String.eqb_refl. by left.
  - destruct (String.eqb _ _); [right|]; auto.
Qed.

(** C3.  For every [<properties>] element, [UnmarshalXML] succeeds and
    records one map entry per immediate child element whatever its tag
    name: every child's local name becomes a key; the value under a key is
    the character data of the last child of that name (the last occurrence
    wins); keys that name no child keep what they had; and with no child
    element at all the map is returned as it came, a [nil] map still
    [nil]. *)
Theorem UnmarshalXML_records_every_child
    (props : Properties.t) (start : StartElement) (content : list Node) :
  exists props',
    Properties.UnmarshalXML props start content = Ok props'
    /\ Forall (fun el => is_Some (Properties.entries props' !! localOf el.1))
         (elements content)
    /\ (forall k,
          Properties.entries props' !! k
          = match last (elementsNamed k content) with
            | Some (_, c) => Some (chardata c)
            | None => Properties.entries props !! k
            end)
    /\ (elements content = [] -> props' = props).
Proof.
  rewrite UnmarshalXML_fold. eexists. split; [reflexivity|].
  split; [|split].
  - apply Forall_forall. intros [cstart c] Hin. rewrite fold_assign_lookup.
    apply list_elem_of_In, elements_elementsNamed in Hin. simpl in *.
    destruct (last (elementsNamed (localOf cstart) content)) as [[]|] eqn:Hlast;
      [eauto|].
    apply last_None in Hlast. rewrite Hlast in Hin. done.
  - apply fold_assign_lookup.
  - by intros ->.
Qed.

(** ** Dependencies and their exclusions *)

Lemma decodes_childText {S} (unmarshal : storer S) x (get : S -> string)
    start content zero v :
  decodes unmarshal [x] get unmarshalString ->
  get zero = "" ->
  unmarshal start content zero = Ok v ->
  get v = childText x content.
Proof.
  intros Hd Hz H. rewrite (decodes_string _ _ _ _ _ _ _ Hd H), Hz. done.
Qed.

(** C9.  A [<dependency>] element with one [<exclusions>] section that
    holds two [<exclusion>] children decodes, into a fresh [Dependency],
    to a value whose exclusion list has length 2; the first entry carries
    the [groupId] and [artifactId] of the first [<exclusion>] child, the
    second entry those of the second. *)
Theorem Dependency_two_exclusions
    (start : StartElement) (content : list Node)
    (estart : StartElement) (econtent : list Node)
    (s1 s2 : StartElement) (c1 c2 : list Node) :
  localOf start = "dependency" ->
  elementsNamed "exclusions" content = [(estart, econtent)] ->
  elementsNamed "exclusion" econtent = [(s1, c1); (s2, c2)] ->
  exists d x1 x2,
    Dependency.unmarshal start content Dependency.zero = Ok d
    /\ Dependency.Exclusions d = [x1; x2]
    /\ length (Dependency.Exclusions d) = 2
    /\ Exclusion.GroupId x1 = childText "groupId" c1
    /\ Exclusion.ArtifactId x1 = childText "artifactId" c1
    /\ Exclusion.GroupId x2 = childText "groupId" c2
    /\ Exclusion.ArtifactId x2 = childText "artifactId" c2.
Proof.
  intros Hname Hsection Hchildren.
  destruct (Dependency_total start content Dependency.zero Hname) as [d Hd].
  destruct Dependency_decodes as (_ & _ & _ & _ & _ & _ & Hexcl).
  destruct (decodes_slice _ _ _ _ _ _ _ _ _ Hexcl Hd) as (xs & Hxs & Hall).
  simpl in Hxs.
  change (elementsAt ["exclusions"; "exclusion"] content)
    with (elementsNamed "exclusion" (inside "exclusions" content)) in Hall.
  unfold inside in Hall. rewrite Hsection in Hall. simpl in Hall.
  rewrite app_nil_r, Hchildren in Hall.
  apply Forall2_cons_inv_l in Hall as (x1 & xs1 & Hx1 & Hall & ->).
  apply Forall2_cons_inv_l in Hall as (x2 & xs2 & Hx2 & Hall & ->).
  apply Forall2_nil_inv_l in Hall as ->. simpl in Hx1, Hx2.
  destruct Exclusion_decodes as (Hg & Ha).
  exists d, x1, x2. rewrite Hxs. repeat split; try done.
  - by apply (decodes_childText _ _ _ _ _ _ _ Hg (eq_refl : _ Exclusion.zero = _) Hx1).
  - by apply (decodes_childText _ _ _ _ _ _ _ Ha (eq_refl : _ Exclusion.zero = _) Hx1).
  - by apply (decodes_childText _ _ _ _ _ _ _ Hg (eq_refl : _ Exclusion.zero = _) Hx2).
  - by apply (decodes_childText _ _ _ _ _ _ _ Ha (eq_refl : _ Exclusion.zero = _) Hx2).
Qed.

(** ** Defaults of absent sections *)




(** Appending never leaves a slice [nil]. *)
Lemma unmarshalSlice_not_nil {A} (zero : A) (unmarshal : storer A)
    start content v v' :
  unmarshalSlice zero unmarshal start content v = Ok v' -> isNil v' = false.
Proof.
  unfold unmarshalSlice. intros H. bind_inv H as x Hx. injection H as <-.
  by destruct v.
Qed.










Lemma Profile_Plugins_decodes :
  decodes Profile.unmarshal ["build"; "plugins"; "plugin"]
    (fun p => Build.Plugins (Profile.Build p))
    (unmarshalSlice Plugin.zero Plugin.unmarshal).
Proof.
  destruct Profile_decodes as (_ & Hb).
  exact (decodes_compose _ _ _ _ _ _ _ _ Hb Build_decodes).
Qed.



(** ** [Parse] and [GetProperty] *)

Section Environment.

Variable tokens : list Byte.byte -> document.
Variable unicodeToLower : string -> string.

(** [Parse] returns a project exactly when the file opens, can be read,
    and its content decodes. *)
Lemma Parse_Return fs path p :
  Parse tokens fs path = Return (Some p) None <->
  exists f data,
    fs path = Ok f /\ ReadAll f = Ok data
    /\ Unmarshal tokens data MavenProject.zero = Ok p.
Proof.
  unfold Parse. split.
  - destruct (fs path) as [f|e]; [|done].
    destruct (ReadAll f) as [data|e] eqn:Hread; [|done].
    destruct (Unmarshal tokens data MavenProject.zero) as [q|e] eqn:Hq; [|done].
    intros [= <-]. by exists f, data.
  - intros (f & data & -> & -> & ->). done.
Qed.


(** C1.  What the code does with a decode error: whenever the file can be
    read and [xml.Unmarshal] reports an error [e] on its content, [Parse]
    does not return; it logs the error and ends the process. *)
Theorem Parse_decode_error_is_fatal
    (fs : FileSystem) (path : string) (f : File) (data : list Byte.byte)
    (e : error) :
  fs path = Ok f ->
  ReadAll f = Ok data ->
  Unmarshal tokens data MavenProject.zero = Err e ->
  Parse tokens fs path = Fatal ("unable to unmarshal pom file. Reason: " +:+ e)
  /\ forall project err, Parse tokens fs path <> Return project err.
Proof.
  intros Hopen Hread Hdecode. unfold Parse.
  rewrite Hopen, Hread, Hdecode. split; [done|]. intros project err. discriminate.
Qed.

(** An input whose first element is never closed is such an error. *)
Lemma Unmarshal_Truncated data start e :
  tokens data = Truncated start e ->
  exists e', Unmarshal tokens data MavenProject.zero = Err e'.
Proof.
  intros H. unfold Unmarshal. rewrite H.
  destruct (checkName _ _ _); simpl; eauto.
Qed.

(** C2.  What the code does with [<profiles>]: the decoded profile list
    has one entry per [<profiles>] element of the project, decoded from
    the [<profiles>] element itself, however many [<profile>] children it
    holds. *)
Theorem Profiles_one_entry_per_profiles_element
    (data : list Byte.byte) (start : StartElement) (content : list Node)
    (p : MavenProject.t) :
  tokens data = Root start content ->
  Unmarshal tokens data MavenProject.zero = Ok p ->
  length (MavenProject.Profiles p) = length (elementsNamed "profiles" content)
  /\ Forall2 (fun el profile =>
                Profile.unmarshal el.1 el.2 Profile.zero = Ok profile)
       (elementsNamed "profiles" content) (MavenProject.Profiles p).
Proof.
  intros Htok H. unfold Unmarshal in H. rewrite Htok in H.
  destruct MavenProject_decodes
    as (_ & _ & _ & _ & _ & _ & _ & _ & _ & _ & _ & Hprofiles & _).
  destruct (decodes_slice _ _ _ _ _ _ _ _ _ Hprofiles H) as (xs & -> & Hall).
  simpl in *. split; [|done]. symmetry. by eapply Forall2_length.
Qed.

(** C6.  When the file cannot be opened, or opens and cannot be read,
    [Parse] returns no project and an error whose text holds the path and
    the cause; the decoder has no part in the result. *)
Theorem Parse_file_error (fs : FileSystem) (path : string) (cause : error) :
  fs path = Err cause
  \/ (exists f, fs path = Ok f /\ ReadAll f = Err cause) ->
  Parse tokens fs path
  = Return None
      (Some ((if isOk (fs path) then "can't read file " else "can't open file ")
             +:+ path +:+ ", " +:+ cause)).
Proof.
  unfold Parse. intros [->|(f & -> & ->)]; done.
Qed.


(** *** The lookup *)

Lemma scan_no_match (order : list (string * string)) (key : string) :
  (forall k v, In (k, v) order ->
     ToLower unicodeToLower k <> ToLower unicodeToLower key) ->
  scan unicodeToLower order key = ("", false).
Proof.
  induction order as [|[k v] order IH]; simpl; intros Hno; [done|].
  destruct (String.eqb_spec (ToLower unicodeToLower k) (ToLower unicodeToLower key))
    as [Heq|_].
  - destruct (Hno k v); auto.
  - apply IH. intros k' v' Hin. apply (Hno k' v'). by right.
Qed.

(** The loop always comes to an end: some visiting order exists. *)
Lemma GetProperty_total (mp : MavenProject.t) (key : string) :
  exists r, GetProperty unicodeToLower mp key r.
Proof.
  eexists. exists (map_to_list (Properties.entries (MavenProject.Properties mp))).
  split; [by unfold rangeOrder|reflexivity].
Qed.

(** Whatever the order in which the map is visited, a key that matches no
    stored key makes the loop run to its end. *)
Lemma scan_rangeOrder_no_match (props : Properties.t)
    (order : list (string * string)) (key : string) :
  rangeOrder props order ->
  (forall k v,
     Properties.entries props !! k = Some v ->
     ToLower unicodeToLower k <> ToLower unicodeToLower key) ->
  scan unicodeToLower order key = ("", false).
Proof.
  intros Horder Hno. apply scan_no_match.
  intros k v Hin. apply (Hno k v).
  apply elem_of_map_to_list. unfold rangeOrder in Horder.
  rewrite <- Horder. by apply list_elem_of_In.
Qed.

(** C5.  When no stored key equals the given key once both are put in
    lower case, the call returns, and whatever the order in which the map
    is visited, returns the empty string and [false]. *)
Theorem GetProperty_no_match (mp : MavenProject.t) (key : string) :
  (forall k v,
     Properties.entries (MavenProject.Properties mp) !! k = Some v ->
     ToLower unicodeToLower k <> ToLower unicodeToLower key) ->
  GetProperty unicodeToLower mp key ("", false)
  /\ forall r, GetProperty unicodeToLower mp key r -> r = ("", false).
Proof.
  intros Hno.
  assert (forall r, GetProperty unicodeToLower mp key r -> r = ("", false)) as Hall.
  { intros r (order & Horder & <-). by eapply scan_rangeOrder_no_match. }
  split; [|done].
  destruct (GetProperty_total mp key) as [r Hr]. by rewrite <- (Hall r Hr).
Qed.

(** Ranging over a [nil] map visits nothing. *)
Lemma GetProperty_nil (mp : MavenProject.t) (key : string) :
  MavenProject.Properties mp = None ->
  GetProperty unicodeToLower mp key ("", false)
  /\ forall r, GetProperty unicodeToLower mp key r -> r = ("", false).
Proof.
  intros Hnil.
  assert (forall r, GetProperty unicodeToLower mp key r -> r = ("", false)) as Hall.
  { intros r (order & Horder & <-).
    eapply scan_rangeOrder_no_match; [exact Horder|].
    intros k v. rewrite Hnil. simpl. by rewrite lookup_empty. }
  split; [|done].
  destruct (GetProperty_total mp key) as [r Hr]. by rewrite <- (Hall r Hr).
Qed.

Lemma foldM_Properties_no_children els :
  forall props props',
    Forall (fun el => elements el.2 = []) els ->
    foldM Properties.unmarshal els props = Ok props' -> props' = props.
Proof.
  induction els as [|[start c] els IH]; simpl; intros props props' Hall.
  - by intros [= <-].
  - apply Forall_cons in Hall as [Hc Hall]. simpl in Hc.
    unfold Properties.unmarshal at 1. rewrite UnmarshalXML_fold, Hc. simpl.
    by apply IH.
Qed.

(** C10.  A project decoded from a document with no [<properties>]
    element, or whose [<properties>] elements have no child element, has a
    [nil] property map, and on it [GetProperty] returns, for any key, the
    empty string and [false]. *)
Theorem GetProperty_without_properties
    (data : list Byte.byte) (start : StartElement) (content : list Node)
    (p : MavenProject.t) :
  tokens data = Root start content ->
  Unmarshal tokens data MavenProject.zero = Ok p ->
  Forall (fun el => elements el.2 = []) (elementsNamed "properties" content) ->
  MavenProject.Properties p = None
  /\ forall key,
       GetProperty unicodeToLower p key ("", false)
       /\ forall r, GetProperty unicodeToLower p key r -> r = ("", false).
Proof.
  intros Htok H Hall. unfold Unmarshal in H. rewrite Htok in H.
  destruct MavenProject_decodes
    as (_ & _ & _ & _ & _ & _ & _ & _ & Hprops & _).
  apply Hprops in H. simpl in H.
  apply foldM_Properties_no_children in H; [|done].
  split; [done|]. intros key. by apply GetProperty_nil.
Qed.

(** C4.  A project whose document holds the one property element
    [<properties><java.version>11</java.version></properties>] decodes,
    and on the result [GetProperty] returns ["11"] and [true] for the key
    ["java.version"] and for the key ["JAVA.VERSION"] alike. *)
Theorem GetProperty_java_version
    (data : list Byte.byte) (start : StartElement) (content : list Node)
    (pstart jstart : StartElement) (pcontent jcontent : list Node) :
  tokens data = Root start content ->
  localOf start = "project" ->
  elementsNamed "properties" content = [(pstart, pcontent)] ->
  elements pcontent = [(jstart, jcontent)] ->
  localOf jstart = "java.version" ->
  chardata jcontent = "11" ->
  exists p,
    Unmarshal tokens data MavenProject.zero = Ok p
    /\ forall key,
         key = "java.version" \/ key = "JAVA.VERSION" ->
         GetProperty unicodeToLower p key ("11", true)
         /\ forall r, GetProperty unicodeToLower p key r -> r = ("11", true).
Proof.
  intros Htok Hroot Hprops Hchild Hname Htext.
  destruct (MavenProject_total start content MavenProject.zero Hroot) as [p Hp].
  exists p. unfold Unmarshal. rewrite Htok. split; [done|].
  destruct MavenProject_decodes
    as (_ & _ & _ & _ & _ & _ & _ & _ & Hdec & _).
  apply Hdec in Hp. simpl in Hp. rewrite Hprops in Hp. simpl in Hp.
  unfold Properties.unmarshal in Hp. rewrite UnmarshalXML_fold, Hchild in Hp.
  simpl in Hp. rewrite Hname, Htext in Hp. injection Hp as Hp.
  assert (forall key r,
            key = "java.version" \/ key = "JAVA.VERSION" ->
            GetProperty unicodeToLower p key r -> r = ("11", true)) as Hall.
  { intros key r Hkey (order & Horder & <-).
    unfold rangeOrder in Horder. rewrite <- Hp in Horder. simpl in Horder.
    rewrite insert_empty, map_to_list_singleton in Horder.
    apply Permutation_singleton_r in Horder as ->.
    by destruct Hkey as [-> | ->]. }
  intros key Hkey. split; [|intros r Hr; exact (Hall key r Hkey Hr)].
  destruct (GetProperty_total p key) as [r Hr]. by rewrite <- (Hall key r Hkey Hr).
Qed.

End Environment.

(** * The sample files *)

(** The minimal document of the specification decodes to a project with
    its three fields set and every list empty. *)
Example Parse_minimalPom :
  Parse sampleTokens sampleFS "pom.xml" = Return (Some minimalProject) None.
Proof. reflexivity. Qed.

(** Two [<profile>] children inside [<profiles>]: one entry, with an empty
    id and no plugins. *)
Example Parse_profilesPom :
  exists p,
    Parse sampleTokens sampleFS "profiles.xml" = Return (Some p) None
    /\ MavenProject.Profiles p = [Profile.zero].
Proof. eexists. split; reflexivity. Qed.

Lemma Parse_decode_error_is_fatal_witness :
  Unmarshal sampleTokens (list_byte_of_string unclosedPom) MavenProject.zero
  = Err "XML syntax error on line 1: unexpected EOF"
  /\ (Parse sampleTokens sampleFS "unclosed.xml"
      = Fatal "unable to unmarshal pom file. Reason: XML syntax error on line 1: unexpected EOF"
      /\ forall project err,
           Parse sampleTokens sampleFS "unclosed.xml" <> Return project err).
Proof.
  split; [reflexivity|].
  apply (Parse_decode_error_is_fatal sampleTokens sampleFS "unclosed.xml"
           {| ReadAll := Ok (list_byte_of_string unclosedPom) |}
           (list_byte_of_string unclosedPom)
           "XML syntax error on line 1: unexpected EOF");
    reflexivity.
Defined.

Lemma Profiles_one_entry_per_profiles_element_witness :
  let p := MavenProject.set_Profiles [Profile.zero]
             (MavenProject.set_XMLName {| Space := ""; Local := "project" |}
                MavenProject.zero) in
  Unmarshal sampleTokens (list_byte_of_string profilesPom) MavenProject.zero = Ok p
  /\ length (elementsAt ["profiles"; "profile"] profilesDoc) = 2
  /\ length (MavenProject.Profiles p) = 1
  /\ Forall2 (fun el profile =>
                Profile.unmarshal el.1 el.2 Profile.zero = Ok profile)
       (elementsNamed "profiles" profilesDoc) (MavenProject.Profiles p).
Proof.
  intros p. split; [reflexivity|]. split; [reflexivity|].
  apply (Profiles_one_entry_per_profiles_element sampleTokens
           (list_byte_of_string profilesPom) (startOf "project") profilesDoc p);
    reflexivity.
Defined.

Lemma GetProperty_java_version_witness :
  exists p,
    Unmarshal sampleTokens (list_byte_of_string javaPom) MavenProject.zero = Ok p
    /\ forall key,
         key = "java.version" \/ key = "JAVA.VERSION" ->
         GetProperty (fun s => s) p key ("11", true)
         /\ forall r, GetProperty (fun s => s) p key r -> r = ("11", true).
Proof.
  apply (GetProperty_java_version sampleTokens (fun s => s)
           (list_byte_of_string javaPom) (startOf "project") javaDoc
           (startOf "properties") (startOf "java.version")
           [leaf "java.version" "11"] [CharData "11"]);
    reflexivity.
Defined.

Lemma GetProperty_no_match_witness :
  let mp := MavenProject.set_Properties (Some {["java.version" := "11"]})
              MavenProject.zero in
  GetProperty (fun s => s) mp "nonexistent" ("", false)
  /\ forall r, GetProperty (fun s => s) mp "nonexistent" r -> r = ("", false).
Proof.
  intros mp. apply (GetProperty_no_match (fun s => s) mp "nonexistent").
  intros k v H. subst mp. simpl in H.
  apply lookup_singleton_Some in H as [<- _]. vm_compute. discriminate.
Defined.

Lemma Parse_file_error_witness :
  Parse sampleTokens sampleFS "missing.xml"
  = Return None
      (Some "can't open file missing.xml, open missing.xml: no such file or directory")
  /\ Parse sampleTokens sampleFS "unreadable.xml"
     = Return None
         (Some "can't read file unreadable.xml, read unreadable.xml: input/output error").
Proof.
  split.
  - apply (Parse_file_error sampleTokens sampleFS "missing.xml"
             "open missing.xml: no such file or directory").
    left. reflexivity.
  - apply (Parse_file_error sampleTokens sampleFS "unreadable.xml"
             "read unreadable.xml: input/output error").
    right. eexists. split; reflexivity.
Defined.



Lemma Dependency_two_exclusions_witness :
  exists d x1 x2,
    Dependency.unmarshal (startOf "dependency") dependencyDoc Dependency.zero = Ok d
    /\ Dependency.Exclusions d = [x1; x2]
    /\ length (Dependency.Exclusions d) = 2
    /\ Exclusion.GroupId x1 = "e1"
    /\ Exclusion.ArtifactId x1 = "a1"
    /\ Exclusion.GroupId x2 = "e2"
    /\ Exclusion.ArtifactId x2 = "a2".
Proof.
  apply (Dependency_two_exclusions (startOf "dependency") dependencyDoc
           (startOf "exclusions")
           [elem "exclusion" [leaf "groupId" "e1"; leaf "artifactId" "a1"];
            elem "exclusion" [leaf "groupId" "e2"; leaf "artifactId" "a2"]]
           (startOf "exclusion") (startOf "exclusion")
           [leaf "groupId" "e1"; leaf "artifactId" "a1"]
           [leaf "groupId" "e2"; leaf "artifactId" "a2"]);
    reflexivity.
Defined.

Lemma GetProperty_without_properties_witness :
  let p := MavenProject.set_XMLName {| Space := ""; Local := "project" |}
             MavenProject.zero in
  Unmarshal sampleTokens (list_byte_of_string emptyPropertiesPom) MavenProject.zero
  = Ok p
  /\ (MavenProject.Properties p = None
      /\ forall key,
           GetProperty (fun s => s) p key ("", false)
           /\ forall r, GetProperty (fun s => s) p key r -> r = ("", false)).
Proof.
  intros p. split; [reflexivity|].
  apply (GetProperty_without_properties sampleTokens (fun s => s)
           (list_byte_of_string emptyPropertiesPom) (startOf "project")
           emptyPropertiesDoc p); [reflexivity|reflexivity|].
  repeat constructor.
Defined.

(** * The decoder against the declarative reading *)

Lemma unmarshalStruct_XMLName {S} (tinfo : typeInfo S) (get : S -> Name)
    tag setn start content sv sv' :
  xmlname tinfo = Some (tag, setn) ->
  (forall n sv, get (setn n sv) = n) ->
  others get tinfo [] ->
  saveAny tinfo = None ->
  saveData tinfo = None ->
  unmarshalStruct tinfo start content sv = Ok sv' ->
  get sv' = name start.
Proof.
  intros Hx Hset Ho Hany Hdata H. unfold unmarshalStruct in H.
  rewrite Hdata in H. bind_inv H as sv1 H1. bind_inv H as sv2 H2.
  injection H as <-.
  rewrite (structLoop_frame get tinfo [] Ho content sv1 sv2 Hany); [|by intros ? ? _ [? ?]|done].
  unfold checkName in H1. rewrite Hx in H1.
  destruct (_ && _); [done|]. injection H1 as <-. apply Hset.
Qed.

Ltac solve_XMLName H :=
  eapply unmarshalStruct_XMLName; cycle 5;
  [ exact H | reflexivity | reflexivity | solve_others | reflexivity
  | reflexivity ].

Lemma decodes_string_path {S} (unmarshal : storer S) path (get : S -> string)
    start content sv sv' :
  decodes unmarshal path get unmarshalString ->
  unmarshal start content sv = Ok sv' ->
  get sv' = match last (elementsAt path content) with
            | Some (_, c) => chardata c
            | None => get sv
            end.
Proof.
  intros Hd H. apply Hd in H. rewrite foldM_unmarshalString in H.
  by injection H.
Qed.

Lemma decodes_map {S A} (unmarshal : storer S) path (get : S -> list A)
    zeroA unmarshalA (f : StartElement * list Node -> A)
    start content zero v :
  decodes unmarshal path get (unmarshalSlice zeroA unmarshalA) ->
  get zero = [] ->
  (forall start' c' x, unmarshalA start' c' zeroA = Ok x -> x = f (start', c')) ->
  unmarshal start content zero = Ok v ->
  get v = map f (elementsAt path content).
Proof.
  intros Hd Hz Hf H.
  destruct (decodes_slice _ _ _ _ _ _ _ _ _ Hd H) as (xs & -> & Hall).
  rewrite Hz. simpl. induction Hall as [|[start' c'] x els xs Hx _ IH]; simpl.
  - done.
  - by rewrite IH, (Hf _ _ _ Hx).
Qed.

Ltac read_list get Hd H reading :=
  eapply (decodes_map _ _ get); [exact Hd| | |exact H];
  [reflexivity|apply reading].

Ltac read_string get :=
  eapply (decodes_childText _ _ get); [eassumption| |eassumption]; reflexivity.

Lemma Repository_reading start c v :
  Repository.unmarshal start c Repository.zero = Ok v ->
  v = Reading.repository (start, c).
Proof.
  intros H. destruct Repository_decodes as (? & ? & ?).
  assert (Repository.Id v = childText "id" c) by read_string Repository.Id.
  assert (Repository.Name v = childText "name" c) by read_string Repository.Name.
  assert (Repository.Url v = childText "url" c) by read_string Repository.Url.
  destruct v. unfold Reading.repository. simpl in *. congruence.
Qed.

Lemma PluginRepository_reading start c v :
  PluginRepository.unmarshal start c PluginRepository.zero = Ok v ->
  v = Reading.pluginRepository (start, c).
Proof.
  intros H. destruct PluginRepository_decodes as (? & ? & ?).
  assert (PluginRepository.Id v = childText "id" c)
    by read_string PluginRepository.Id.
  assert (PluginRepository.Name v = childText "name" c)
    by read_string PluginRepository.Name.
  assert (PluginRepository.Url v = childText "url" c)
    by read_string PluginRepository.Url.
  destruct v. unfold Reading.pluginRepository. simpl in *. congruence.
Qed.

Lemma Exclusion_reading start c v :
  Exclusion.unmarshal start c Exclusion.zero = Ok v ->
  v = Reading.exclusion (start, c).
Proof.
  intros H. destruct Exclusion_decodes as (? & ?).
  assert (Exclusion.XMLName v = name start) by solve_XMLName H.
  assert (Exclusion.GroupId v = childText "groupId" c)
    by read_string Exclusion.GroupId.
  assert (Exclusion.ArtifactId v = childText "artifactId" c)
    by read_string Exclusion.ArtifactId.
  destruct v. unfold Reading.exclusion. simpl in *. congruence.
Qed.

Lemma Plugin_reading start c v :
  Plugin.unmarshal start c Plugin.zero = Ok v ->
  v = Reading.plugin (start, c).
Proof.
  intros H. destruct Plugin_decodes as (? & ? & ?).
  assert (Plugin.XMLName v = name start) by solve_XMLName H.
  assert (Plugin.GroupId v = childText "groupId" c) by read_string Plugin.GroupId.
  assert (Plugin.ArtifactId v = childText "artifactId" c)
    by read_string Plugin.ArtifactId.
  assert (Plugin.Version v = childText "version" c) by read_string Plugin.Version.
  destruct v. unfold Reading.plugin. simpl in *. congruence.
Qed.

Lemma Dependency_reading start c v :
  Dependency.unmarshal start c Dependency.zero = Ok v ->
  v = Reading.dependency (start, c).
Proof.
  intros H. destruct Dependency_decodes as (? & ? & ? & ? & ? & ? & Hexcl).
  assert (Dependency.XMLName v = name start) by solve_XMLName H.
  assert (Dependency.GroupId v = childText "groupId" c)
    by read_string Dependency.GroupId.
  assert (Dependency.ArtifactId v = childText "artifactId" c)
    by read_string Dependency.ArtifactId.
  assert (Dependency.Version v = childText "version" c)
    by read_string Dependency.Version.
  assert (Dependency.Classifier v = childText "classifier" c)
    by read_string Dependency.Classifier.
  assert (Dependency.Type_ v = childText "type" c)
    by read_string Dependency.Type_.
  assert (Dependency.Scope v = childText "scope" c)
    by read_string Dependency.Scope.
  assert (Dependency.Exclusions v
          = map Reading.exclusion (elementsAt ["exclusions"; "exclusion"] c)).
  { eapply (decodes_map _ _ Dependency.Exclusions); [exact Hexcl| | |exact H];
      [reflexivity|apply Exclusion_reading]. }
  destruct v. unfold Reading.dependency. simpl in *. congruence.
Qed.

Lemma elements_app c1 c2 : elements (c1 ++ c2) = elements c1 ++ elements c2.
Proof.
  induction c1 as [|t c1 IH]; simpl; [done|].
  destruct t; simpl; by rewrite ?IH.
Qed.

Lemma foldM_Properties_unmarshal els :
  forall props,
    foldM Properties.unmarshal els props
    = Ok (fold_left
            (fun props el => Properties.assign props (localOf el.1) (chardata el.2))
            (elements (concat (map snd els))) props).
Proof.
  induction els as [|[start c] els IH]; intros props; simpl; [done|].
  unfold Properties.unmarshal at 1. rewrite UnmarshalXML_fold. simpl.
  by rewrite IH, elements_app, fold_left_app.
Qed.

Ltac read_nested get Hd H :=
  rewrite (decodes_string_path _ _ get _ _ _ _ Hd H); reflexivity.

Lemma Profile_reading start c v :
  Profile.unmarshal start c Profile.zero = Ok v ->
  v = Reading.profile (start, c).
Proof.
  intros H. destruct Profile_decodes as (? & _).
  pose proof Profile_Plugins_decodes as Hp.
  assert (Profile.Id v = childText "id" c) by read_string Profile.Id.
  assert (Build.Plugins (Profile.Build v)
          = map Reading.plugin (elementsAt ["build"; "plugins"; "plugin"] c))
    by read_list (fun p => Build.Plugins (Profile.Build p)) Hp H Plugin_reading.
  destruct v as [id [plugins]]. unfold Reading.profile, Reading.build.
  simpl in *. congruence.
Qed.

Lemma MavenProject_reading start content p :
  MavenProject.unmarshal start content MavenProject.zero = Ok p ->
  p = Reading.project start content.
Proof.
  intros H.
  destruct MavenProject_decodes
    as (Hmv & Hparent & Hg & Ha & Hv & Hpk & Hn & Hrepos & Hprops & Hdm & Hdeps
        & Hprofiles & Hbuild & Hprepos).
  destruct Parent_decodes as (Hpg & Hpa & Hpv).
  pose proof (decodes_compose _ _ _ _ _ _ _ _ Hparent Hpg) as Hpg'.
  pose proof (decodes_compose _ _ _ _ _ _ _ _ Hparent Hpa) as Hpa'.
  pose proof (decodes_compose _ _ _ _ _ _ _ _ Hparent Hpv) as Hpv'.
  pose proof (decodes_compose _ _ _ _ _ _ _ _ Hdm DependencyManagement_decodes)
    as Hdm'.
  pose proof (decodes_compose _ _ _ _ _ _ _ _ Hbuild Build_decodes) as Hbuild'.
  assert (MavenProject.XMLName p = name start) by solve_XMLName H.
  assert (MavenProject.ModelVersion p = childText "modelVersion" content)
    by read_string MavenProject.ModelVersion.
  assert (Parent.GroupId (MavenProject.Parent p)
          = childText "groupId" (inside "parent" content))
    by read_nested (fun p => Parent.GroupId (MavenProject.Parent p)) Hpg' H.
  assert (Parent.ArtifactId (MavenProject.Parent p)
          = childText "artifactId" (inside "parent" content))
    by read_nested (fun p => Parent.ArtifactId (MavenProject.Parent p)) Hpa' H.
  assert (Parent.Version (MavenProject.Parent p)
          = childText "version" (inside "parent" content))
    by read_nested (fun p => Parent.Version (MavenProject.Parent p)) Hpv' H.
  assert (MavenProject.GroupId p = childText "groupId" content)
    by read_string MavenProject.GroupId.
  assert (MavenProject.ArtifactId p = childText "artifactId" content)
    by read_string MavenProject.ArtifactId.
  assert (MavenProject.Version p = childText "version" content)
    by read_string MavenProject.Version.
  assert (MavenProject.Packaging p = childText "packaging" content)
    by read_string MavenProject.Packaging.
  assert (MavenProject.Name p = childText "name" content)
    by read_string MavenProject.Name.
  assert (MavenProject.Repositories p
          = map Reading.repository
              (elementsAt ["repositories"; "repository"] content))
    by read_list MavenProject.Repositories Hrepos H Repository_reading.
  assert (MavenProject.Properties p
          = Reading.properties (inside "properties" content)).
  { apply Hprops in H. simpl in H.
    rewrite foldM_Properties_unmarshal in H. by injection H as <-. }
  assert (DependencyManagement.Dependencies (MavenProject.DependencyManagement p)
          = map Reading.dependency
              (elementsAt ["dependencyManagement"; "dependencies"; "dependency"]
                 content))
    by read_list
         (fun p => DependencyManagement.Dependencies
                     (MavenProject.DependencyManagement p))
         Hdm' H Dependency_reading.
  assert (MavenProject.Dependencies p
          = map Reading.dependency
              (elementsAt ["dependencies"; "dependency"] content))
    by read_list MavenProject.Dependencies Hdeps H Dependency_reading.
  assert (MavenProject.Profiles p
          = map Reading.profile (elementsAt ["profiles"] content))
    by read_list MavenProject.Profiles Hprofiles H Profile_reading.
  assert (Build.Plugins (MavenProject.Build p)
          = map Reading.plugin (elementsAt ["build"; "plugins"; "plugin"] content))
    by read_list (fun p => Build.Plugins (MavenProject.Build p)) Hbuild' H
         Plugin_reading.
  assert (MavenProject.PluginRepositories p
          = map Reading.pluginRepository
              (elementsAt ["pluginRepositories"; "pluginRepository"] content))
    by read_list MavenProject.PluginRepositories Hprepos H
         PluginRepository_reading.
  destruct p as [? ? [? ? ?] ? ? ? ? ? ? ? [?] ? ? [?] ?].
  unfold Reading.project, Reading.parent, Reading.dependencyManagement,
    Reading.build.
  simpl in *. congruence.
Qed.

(** * Further properties of the code *)

(** ** The decoder as a whole *)

Lemma checkName_mismatch start sv :
  localOf start <> "project" ->
  checkName MavenProject.info start sv
  = Err ("expected element type <project> but have <" +:+ localOf start +:+ ">").
Proof.
  intros Hne. unfold checkName. simpl.
  destruct (String.eqb_spec "project" (localOf start)) as [Heq|_]; [|done].
  by destruct Hne.
Qed.

Lemma MavenProject_unmarshal_zero start content :
  MavenProject.unmarshal start content MavenProject.zero
  = if String.eqb (localOf start) "project"
    then Ok (Reading.project start content)
    else Err ("expected element type <project> but have <"
              +:+ localOf start +:+ ">").
Proof.
  destruct (String.eqb_spec (localOf start) "project") as [Heq|Hne].
  - destruct (MavenProject_total start content MavenProject.zero Heq) as [p Hp].
    by rewrite Hp, (MavenProject_reading _ _ _ Hp).
  - unfold MavenProject.unmarshal, unmarshalStruct.
    by rewrite checkName_mismatch.
Qed.

(** X1.  Decoding a complete root element into a fresh project: when the
    element is called [project] the decoder succeeds and its result is the
    declarative reading of the document, field by field; when it is called
    anything else the decoder fails with the name-mismatch error. *)
Theorem MavenProject_unmarshal_reading
    (start : StartElement) (content : list Node) :
  MavenProject.unmarshal start content MavenProject.zero
  = if String.eqb (localOf start) "project"
    then Ok (Reading.project start content)
    else Err ("expected element type <project> but have <"
              +:+ localOf start +:+ ">").
Proof. apply MavenProject_unmarshal_zero. Qed.

(** X2.  A [<dependency>] element decodes, into a fresh [Dependency], to
    the reading of the element: its six strings are the texts of its last
    children of those names, and its exclusion list has one entry per
    [<exclusion>] under [<exclusions>], in document order, however many
    there are. *)
Theorem Dependency_unmarshal_reading
    (start : StartElement) (content : list Node) :
  localOf start = "dependency" ->
  Dependency.unmarshal start content Dependency.zero
  = Ok (Reading.dependency (start, content))
  /\ length (Dependency.Exclusions (Reading.dependency (start, content)))
     = length (elementsAt ["exclusions"; "exclusion"] content).
Proof.
  intros Hname.
  destruct (Dependency_total start content Dependency.zero Hname) as [d Hd].
  rewrite Hd, (Dependency_reading _ _ _ Hd). split; [done|].
  unfold Reading.dependency. simpl. apply length_map.
Qed.

(** *** Elements the schema has no field for *)

Lemma matchField_NoMatch {S} (tinfo : typeInfo S) (local : string) :
  existsb (String.eqb local) (fieldHeads tinfo) = false ->
  matchField tinfo [] local = NoMatch.
Proof.
  induction tinfo as [|f tinfo IH]; simpl; [done|].
  destruct (fieldPath f) as [[[fps fname] store]|]; [|done].
  simpl. intros [Hhd Hrest]%orb_false_elim.
  rewrite String.eqb_sym in Hhd.
  destruct fps as [|q fps]; simpl in *; rewrite Hhd; simpl; auto.
Qed.

Lemma structLoop_filter {S} (tinfo : typeInfo S) content :
  forall sv,
    saveAny tinfo = None ->
    structLoop tinfo (filter (elementIn (fieldHeads tinfo)) content) sv
    = structLoop tinfo content sv.
Proof.
  intros sv Hany. revert sv.
  induction content as [|t content IH]; intros sv; [done|].
  destruct t as [start c| | | |]; try (rewrite filter_cons; simpl; apply IH).
  rewrite filter_cons. simpl.
  destruct (existsb (String.eqb (localOf start)) (fieldHeads tinfo)) eqn:Hin; simpl.
  - destruct (unmarshalPath tinfo [] (Element start c) sv) as [r|e]; simpl; [|done].
    rewrite Hany. destruct (fst r); apply IH.
  - rewrite unmarshalPath_Element, (matchField_NoMatch _ _ Hin). simpl.
    rewrite Hany. apply IH.
Qed.

Lemma unmarshalStruct_filter {S} (tinfo : typeInfo S) start content sv :
  saveAny tinfo = None ->
  saveData tinfo = None ->
  unmarshalStruct tinfo start (filter (elementIn (fieldHeads tinfo)) content) sv
  = unmarshalStruct tinfo start content sv.
Proof.
  intros Hany Hdata. unfold unmarshalStruct. rewrite Hdata.
  destruct (checkName tinfo start sv) as [sv1|e]; simpl; [|done].
  by rewrite structLoop_filter.
Qed.

(** X3.  Whatever a struct has no field for is discarded without error:
    removing from an element every comment, processing instruction,
    directive and piece of text between its children, and every child
    element whose name is not the first path component of one of the
    struct's tags, changes nothing in what the project, a dependency or a
    plugin decodes to, whatever value is decoded into. *)
Theorem unmarshal_ignores_unmapped (start : StartElement) (content : list Node) :
  (forall sv,
     MavenProject.unmarshal start
       (filter (elementIn
                  ["modelVersion"; "parent"; "groupId"; "artifactId"; "version";
                   "packaging"; "name"; "repositories"; "properties";
                   "dependencyManagement"; "dependencies"; "profiles"; "build";
                   "pluginRepositories"]) content) sv
     = MavenProject.unmarshal start content sv)
  /\ (forall sv,
        Dependency.unmarshal start
          (filter (elementIn
                     ["groupId"; "artifactId"; "version"; "classifier"; "type";
                      "scope"; "exclusions"]) content) sv
        = Dependency.unmarshal start content sv)
  /\ (forall sv,
        Plugin.unmarshal start
          (filter (elementIn ["groupId"; "artifactId"; "version"]) content) sv
        = Plugin.unmarshal start content sv).
Proof.
  split; [|split]; intros sv.
  - exact (unmarshalStruct_filter MavenProject.info start content sv
             eq_refl eq_refl).
  - exact (unmarshalStruct_filter Dependency.info start content sv
             eq_refl eq_refl).
  - exact (unmarshalStruct_filter Plugin.info start content sv eq_refl eq_refl).
Qed.

(** *** Attributes *)

Lemma chardata_clearAttrs c : chardata (map clearAttrs c) = chardata c.
Proof. induction c as [|[] c IH]; simpl; by rewrite ?IH. Qed.

Lemma elementsNamed_clearAttrs x c :
  elementsNamed x (map clearAttrs c)
  = map (prod_map clearAttr (map clearAttrs)) (elementsNamed x c).
Proof.
  induction c as [|t c IH]; simpl; [done|].
  destruct t as [start c'| | | |]; simpl; auto.
  change (localOf (clearAttr start)) with (localOf start).
  destruct (String.eqb (localOf start) x); simpl; by rewrite IH.
Qed.

Lemma elements_clearAttrs c :
  elements (map clearAttrs c)
  = map (prod_map clearAttr (map clearAttrs)) (elements c).
Proof.
  induction c as [|t c IH]; simpl; [done|].
  destruct t; simpl; by rewrite ?IH.
Qed.

Lemma inside_clearAttrs x c :
  inside x (map clearAttrs c) = map clearAttrs (inside x c).
Proof.
  unfold inside. rewrite elementsNamed_clearAttrs.
  induction (elementsNamed x c) as [|[start c'] els IH]; simpl; [done|].
  by rewrite IH, map_app.
Qed.

Lemma elementsAt_clearAttrs path :
  forall c,
    elementsAt path (map clearAttrs c)
    = map (prod_map clearAttr (map clearAttrs)) (elementsAt path c).
Proof.
  induction path as [|x [|y path] IH]; intros c; [done| |].
  - apply elementsNamed_clearAttrs.
  - by rewrite !elementsAt_cons, inside_clearAttrs, IH.
Qed.

Lemma childText_clearAttrs x c : childText x (map clearAttrs c) = childText x c.
Proof.
  unfold childText. rewrite elementsNamed_clearAttrs.
  change (map ?f ?l) with (f <$> l). rewrite fmap_last.
  destruct (last (elementsNamed x c)) as [[start c']|]; simpl; [|done].
  apply chardata_clearAttrs.
Qed.

Lemma map_reading_clearAttrs {A} (f : StartElement * list Node -> A) path c :
  (forall el, f (prod_map clearAttr (map clearAttrs) el) = f el) ->
  map f (elementsAt path (map clearAttrs c)) = map f (elementsAt path c).
Proof.
  intros Hf. rewrite elementsAt_clearAttrs, map_map. by apply map_ext.
Qed.

Lemma exclusion_clearAttrs el :
  Reading.exclusion (prod_map clearAttr (map clearAttrs) el) = Reading.exclusion el.
Proof.
  destruct el as [start c]. unfold Reading.exclusion, prod_map. cbn [fst snd].
  by rewrite !childText_clearAttrs.
Qed.

Lemma dependency_clearAttrs el :
  Reading.dependency (prod_map clearAttr (map clearAttrs) el) = Reading.dependency el.
Proof.
  destruct el as [start c]. unfold Reading.dependency, prod_map. cbn [fst snd].
  rewrite !childText_clearAttrs.
  by rewrite (map_reading_clearAttrs _ _ _ exclusion_clearAttrs).
Qed.

Lemma repository_clearAttrs el :
  Reading.repository (prod_map clearAttr (map clearAttrs) el) = Reading.repository el.
Proof.
  destruct el as [start c]. unfold Reading.repository, prod_map. cbn [fst snd].
  by rewrite !childText_clearAttrs.
Qed.

Lemma pluginRepository_clearAttrs el :
  Reading.pluginRepository (prod_map clearAttr (map clearAttrs) el)
  = Reading.pluginRepository el.
Proof.
  destruct el as [start c]. unfold Reading.pluginRepository, prod_map. cbn [fst snd].
  by rewrite !childText_clearAttrs.
Qed.

Lemma plugin_clearAttrs el :
  Reading.plugin (prod_map clearAttr (map clearAttrs) el) = Reading.plugin el.
Proof.
  destruct el as [start c]. unfold Reading.plugin, prod_map. cbn [fst snd].
  by rewrite !childText_clearAttrs.
Qed.

Lemma build_clearAttrs c : Reading.build (map clearAttrs c) = Reading.build c.
Proof.
  unfold Reading.build.
  by rewrite (map_reading_clearAttrs _ _ _ plugin_clearAttrs).
Qed.

Lemma profile_clearAttrs el :
  Reading.profile (prod_map clearAttr (map clearAttrs) el) = Reading.profile el.
Proof.
  destruct el as [start c]. unfold Reading.profile, prod_map. cbn [fst snd].
  by rewrite childText_clearAttrs, inside_clearAttrs, build_clearAttrs.
Qed.

Lemma properties_clearAttrs c :
  Reading.properties (map clearAttrs c) = Reading.properties c.
Proof.
  unfold Reading.properties. rewrite elements_clearAttrs.
  generalize Properties.zero as props.
  induction (elements c) as [|[start c'] els IH]; intros props; simpl; [done|].
  change (localOf (clearAttr start)) with (localOf start).
  by rewrite chardata_clearAttrs, IH.
Qed.

Lemma project_clearAttrs start c :
  Reading.project (clearAttr start) (map clearAttrs c) = Reading.project start c.
Proof.
  unfold Reading.project, Reading.parent, Reading.dependencyManagement.
  rewrite !inside_clearAttrs, !childText_clearAttrs, build_clearAttrs,
    properties_clearAttrs.
  rewrite (map_reading_clearAttrs _ _ _ repository_clearAttrs).
  rewrite !(map_reading_clearAttrs _ _ _ dependency_clearAttrs).
  rewrite (map_reading_clearAttrs _ _ _ pluginRepository_clearAttrs).
  rewrite elementsNamed_clearAttrs, map_map.
  by rewrite (map_ext _ _ profile_clearAttrs).
Qed.

Lemma unmarshal_clearAttrs start content :
  MavenProject.unmarshal (clearAttr start) (map clearAttrs content) MavenProject.zero
  = MavenProject.unmarshal start content MavenProject.zero.
Proof.
  rewrite !MavenProject_unmarshal_zero.
  change (localOf (clearAttr start)) with (localOf start).
  by rewrite project_clearAttrs.
Qed.

(** X4.  The decoder never reads the [Attr] field of a start element: two
    root elements whose tokens are the same once every [Attr] field is
    emptied, names and resolved name spaces being equal, decode into a
    fresh project to the same result, be it a project or an error. *)
Theorem unmarshal_never_reads_Attr
    (start start' : StartElement) (content content' : list Node) :
  clearAttr start = clearAttr start' ->
  map clearAttrs content = map clearAttrs content' ->
  MavenProject.unmarshal start content MavenProject.zero
  = MavenProject.unmarshal start' content' MavenProject.zero.
Proof.
  intros Hstart Hcontent.
  rewrite <- (unmarshal_clearAttrs start content).
  rewrite <- (unmarshal_clearAttrs start' content').
  by rewrite Hstart, Hcontent.
Qed.

(** ** The property map *)

Lemma bind_UnmarshalXML props s1 c1 s2 c2 s3 :
  (props1 <-! Properties.UnmarshalXML props s1 c1;
   Properties.UnmarshalXML props1 s2 c2)
  = Properties.UnmarshalXML props s3 (c1 ++ c2).
Proof.
  rewrite !UnmarshalXML_fold. simpl.
  by rewrite UnmarshalXML_fold, elements_app, fold_left_app.
Qed.

(** X5.  Decoding two [<properties>] elements one after the other into
    the same map gives what decoding one element with the children of
    both, in order, gives: entries accumulate across elements and a later
    element overrides an earlier one. *)
Theorem UnmarshalXML_twice
    (props : Properties.t) (s1 s2 s3 : StartElement) (c1 c2 : list Node) :
  (props1 <-! Properties.UnmarshalXML props s1 c1;
   Properties.UnmarshalXML props1 s2 c2)
  = Properties.UnmarshalXML props s3 (c1 ++ c2).
Proof. apply bind_UnmarshalXML. Qed.

Lemma fold_assign_Some els :
  forall props,
    els <> [] ->
    fold_left
      (fun props el => Properties.assign props (localOf el.1) (chardata el.2))
      els props <> None.
Proof.
  assert (forall els m,
            fold_left
              (fun props (el : StartElement * list Node) =>
                 Properties.assign props (localOf el.1) (chardata el.2))
              els (Some m) <> None) as Hsome.
  { intros els'. induction els' as [|el els' IH]; intros m; simpl; [done|apply IH]. }
  intros props Hne. destruct els as [|el els]; [done|]. simpl.
  destruct props; apply Hsome.
Qed.

Lemma Reading_properties_lookup c k :
  Properties.entries (Reading.properties c) !! k
  = match last (elementsNamed k c) with
    | Some (_, c') => Some (chardata c')
    | None => None
    end.
Proof.
  unfold Reading.properties. rewrite fold_assign_lookup. simpl.
  by rewrite lookup_empty.
Qed.

Lemma Reading_properties_nil c :
  Reading.properties c = None <-> elements c = [].
Proof.
  unfold Reading.properties. split.
  - intros H. destruct (elements c) as [|el els] eqn:Hels; [done|].
    by apply fold_assign_Some in H.
  - by intros ->.
Qed.

Lemma Reading_properties_document content k :
  Properties.entries (Reading.properties (inside "properties" content)) !! k
  = match last (elementsAt ["properties"; k] content) with
    | Some (_, c') => Some (chardata c')
    | None => None
    end.
Proof. apply Reading_properties_lookup. Qed.

(** ** [Parse] and [GetProperty], continued *)

Section MoreEnvironment.

Variable tokens : list Byte.byte -> document.
Variable unicodeToLower : string -> string.

Lemma Unmarshal_zero data :
  Unmarshal tokens data MavenProject.zero
  = match tokens data with
    | NoElement e => Err e
    | Truncated start e =>
        if String.eqb (localOf start) "project" then Err e
        else Err ("expected element type <project> but have <"
                  +:+ localOf start +:+ ">")
    | Root start content =>
        if String.eqb (localOf start) "project"
        then Ok (Reading.project start content)
        else Err ("expected element type <project> but have <"
                  +:+ localOf start +:+ ">")
    end.
Proof.
  unfold Unmarshal. destruct (tokens data) as [e|start e|start content].
  - done.
  - destruct (String.eqb_spec (localOf start) "project") as [Heq|Hne].
    + unfold checkName. simpl. rewrite Heq. done.
    + by rewrite checkName_mismatch.
  - apply MavenProject_unmarshal_zero.
Qed.

(** X6.  The property map of a decoded project, for any document: under a
    key [k] it holds the text of the last element called [k] among the
    children of all [<properties>] elements of the project, and nothing
    under a key that names no such child; it is [nil] exactly when no
    [<properties>] element has a child element. *)
Theorem Properties_of_document
    (data : list Byte.byte) (start : StartElement) (content : list Node)
    (p : MavenProject.t) :
  tokens data = Root start content ->
  Unmarshal tokens data MavenProject.zero = Ok p ->
  (forall k,
     Properties.entries (MavenProject.Properties p) !! k
     = match last (elementsAt ["properties"; k] content) with
       | Some (_, c) => Some (chardata c)
       | None => None
       end)
  /\ (MavenProject.Properties p = None
      <-> elements (inside "properties" content) = []).
Proof.
  intros Htok H. rewrite Unmarshal_zero, Htok in H.
  destruct (String.eqb (localOf start) "project"); [|done].
  injection H as <-. split.
  - intros k. apply Reading_properties_document.
  - apply Reading_properties_nil.
Qed.

(** *** The lookup, for any map *)

Lemma scan_found order key v :
  scan unicodeToLower order key = (v, true) ->
  exists k,
    In (k, v) order /\ ToLower unicodeToLower k = ToLower unicodeToLower key.
Proof.
  induction order as [|[k' v'] order IH]; simpl; [done|].
  destruct (String.eqb_spec (ToLower unicodeToLower k')
              (ToLower unicodeToLower key)) as [Heq|_].
  - intros [= ->]. exists k'. split; [by left|done].
  - intros (k & Hin & Hk)%IH. exists k. split; [by right|done].
Qed.

Lemma scan_not_found order key v :
  scan unicodeToLower order key = (v, false) ->
  v = ""
  /\ forall k v', In (k, v') order ->
       ToLower unicodeToLower k <> ToLower unicodeToLower key.
Proof.
  induction order as [|[k' v'] order IH]; simpl.
  - intros [= <-]. split; [done|]. intros ? ? [].
  - destruct (String.eqb_spec (ToLower unicodeToLower k')
                (ToLower unicodeToLower key)) as [Heq|Hne]; [done|].
    intros [-> Hno]%IH. split; [done|].
    intros k v'' [[= <- <-]|Hin]; [done|by eapply Hno].
Qed.

Lemma In_rangeOrder props order k v :
  rangeOrder props order ->
  In (k, v) order <-> Properties.entries props !! k = Some v.
Proof.
  unfold rangeOrder. intros Horder.
  rewrite <- list_elem_of_In, Horder. apply elem_of_map_to_list.
Qed.

Lemma GetProperty_true_iff mp key v :
  GetProperty unicodeToLower mp key (v, true)
  <-> exists k,
        Properties.entries (MavenProject.Properties mp) !! k = Some v
        /\ ToLower unicodeToLower k = ToLower unicodeToLower key.
Proof.
  split.
  - intros (order & Horder & (k & Hin & Hk)%scan_found).
    exists k. split; [|done]. by apply (In_rangeOrder _ _ _ _ Horder).
  - intros (k & Hk & Hmatch).
    exists ((k, v) :: map_to_list
                        (delete k (Properties.entries (MavenProject.Properties mp)))).
    split.
    + unfold rangeOrder. by apply map_to_list_delete.
    + simpl. by rewrite Hmatch, String.eqb_refl.
Qed.

Lemma GetProperty_false_iff mp key v :
  GetProperty unicodeToLower mp key (v, false)
  <-> v = ""
      /\ forall k v',
           Properties.entries (MavenProject.Properties mp) !! k = Some v' ->
           ToLower unicodeToLower k <> ToLower unicodeToLower key.
Proof.
  split.
  - intros (order & Horder & [-> Hno]%scan_not_found). split; [done|].
    intros k v' Hk. apply (Hno k v'). by apply (In_rangeOrder _ _ _ _ Horder).
  - intros [-> Hno].
    destruct (GetProperty_total unicodeToLower mp key) as [r (order & Horder & Hr)].
    exists order. split; [done|]. by eapply scan_rangeOrder_no_match.
Qed.

(** X7.  What [GetProperty] can return, for any project and key: a value
    with [true] exactly when that value is stored under some key equal to
    the given key once both are lower-cased, any such entry being a
    possible answer; and [false] exactly when the value is empty and no
    stored key matches. *)
Theorem GetProperty_results (mp : MavenProject.t) (key : string) (v : string) :
  (GetProperty unicodeToLower mp key (v, true)
   <-> exists k,
         Properties.entries (MavenProject.Properties mp) !! k = Some v
         /\ ToLower unicodeToLower k = ToLower unicodeToLower key)
  /\ (GetProperty unicodeToLower mp key (v, false)
      <-> v = ""
          /\ forall k v',
               Properties.entries (MavenProject.Properties mp) !! k = Some v' ->
               ToLower unicodeToLower k <> ToLower unicodeToLower key).
Proof. split; [apply GetProperty_true_iff|apply GetProperty_false_iff]. Qed.

(** X8.  When the stored keys that match the given key all hold the same
    value [v], and there is at least one, [GetProperty] returns [v] and
    [true] whatever the order in which the map is visited. *)
Theorem GetProperty_unique_match
    (mp : MavenProject.t) (key k v : string) :
  Properties.entries (MavenProject.Properties mp) !! k = Some v ->
  ToLower unicodeToLower k = ToLower unicodeToLower key ->
  (forall k' v',
     Properties.entries (MavenProject.Properties mp) !! k' = Some v' ->
     ToLower unicodeToLower k' = ToLower unicodeToLower key -> v' = v) ->
  GetProperty unicodeToLower mp key (v, true)
  /\ forall r, GetProperty unicodeToLower mp key r -> r = (v, true).
Proof.
  intros Hk Hmatch Huniq. split.
  - apply GetProperty_true_iff. eauto.
  - intros [v' [|]] Hr.
    + apply GetProperty_true_iff in Hr as (k' & Hk' & Hmatch').
      by rewrite (Huniq k' v' Hk' Hmatch').
    + apply GetProperty_false_iff in Hr as [_ Hno]. by destruct (Hno k v Hk).
Qed.

Lemma lowerByte_ascii c :
  (N_of_ascii c <? RuneSelf)%N = true ->
  (N_of_ascii (lowerByte c) <? RuneSelf)%N = true
  /\ isUpper (lowerByte c) = false.
Proof.
  destruct c as [[] [] [] [] [] [] [] []]; vm_compute; intros H;
    first [discriminate H | split; reflexivity].
Qed.

Lemma mapBytes_lowerByte_ascii s :
  isASCII s = true ->
  isASCII (mapBytes lowerByte s) = true
  /\ hasUpper (mapBytes lowerByte s) = false.
Proof.
  induction s as [|c s IH]; simpl; [done|].
  intros [Hc Hs]%andb_prop. destruct (IH Hs) as [-> ->].
  destruct (lowerByte_ascii c Hc) as [-> ->]. done.
Qed.

Lemma ToLower_idempotent_ascii s :
  isASCII s = true ->
  ToLower unicodeToLower (ToLower unicodeToLower s) = ToLower unicodeToLower s.
Proof.
  intros Hs.
  assert (ToLower unicodeToLower s
          = if hasUpper s then mapBytes lowerByte s else s) as Hlow
    by (unfold ToLower; by rewrite Hs).
  rewrite Hlow. destruct (hasUpper s) eqn:Hup; [|exact Hlow].
  destruct (mapBytes_lowerByte_ascii s Hs) as [Ha Hu].
  unfold ToLower. by rewrite Ha, Hu.
Qed.

(** X9.  The case of an ASCII key does not matter: looking up a key made
    of ASCII bytes and looking up its lower-cased form have the same
    possible results. *)
Theorem GetProperty_key_case
    (mp : MavenProject.t) (key : string) (r : string * bool) :
  isASCII key = true ->
  GetProperty unicodeToLower mp (ToLower unicodeToLower key) r
  <-> GetProperty unicodeToLower mp key r.
Proof.
  intros Hascii.
  assert (forall order,
            scan unicodeToLower order (ToLower unicodeToLower key)
            = scan unicodeToLower order key) as Hscan.
  { induction order as [|[k v] order IH]; simpl; [done|].
    by rewrite ToLower_idempotent_ascii, IH. }
  split; intros (order & Horder & Hr); exists order; split; try done;
    by rewrite ?Hscan in *.
Qed.

(** X10.  Decoding and then looking up, for any document: on the project
    a document decodes to, [GetProperty] can return [v] with [true]
    exactly when some name [k], equal to the key once both are
    lower-cased, is the name of a child of a [<properties>] element and
    the last child of that name has text [v]. *)
Theorem GetProperty_of_document
    (data : list Byte.byte) (start : StartElement) (content : list Node)
    (p : MavenProject.t) (key v : string) :
  tokens data = Root start content ->
  Unmarshal tokens data MavenProject.zero = Ok p ->
  GetProperty unicodeToLower p key (v, true)
  <-> exists k s c,
        ToLower unicodeToLower k = ToLower unicodeToLower key
        /\ last (elementsAt ["properties"; k] content) = Some (s, c)
        /\ chardata c = v.
Proof.
  intros Htok H. rewrite Unmarshal_zero, Htok in H.
  destruct (String.eqb (localOf start) "project"); [|done].
  injection H as <-. rewrite GetProperty_true_iff.
  change (MavenProject.Properties (Reading.project start content))
    with (Reading.properties (inside "properties" content)).
  split.
  - intros (k & Hk & Hmatch). rewrite Reading_properties_document in Hk.
    destruct (last (elementsAt ["properties"; k] content)) as [[s c]|] eqn:Hlast;
      [|done].
    injection Hk as <-. by exists k, s, c.
  - intros (k & s & c & Hmatch & Hlast & <-). exists k. split; [|done].
    by rewrite Reading_properties_document, Hlast.
Qed.

(** X11.  [Parse] returns a project exactly when the file opens, is read
    to the end, and its content holds a complete first element called
    [project]; the project returned is then the declarative reading of
    that element. *)
Theorem Parse_returns_project_iff
    (fs : FileSystem) (path : string) (p : MavenProject.t) :
  Parse tokens fs path = Return (Some p) None
  <-> exists f data start content,
        fs path = Ok f /\ ReadAll f = Ok data
        /\ tokens data = Root start content
        /\ localOf start = "project"
        /\ p = Reading.project start content.
Proof.
  rewrite Parse_Return. split.
  - intros (f & data & Hopen & Hread & H). rewrite Unmarshal_zero in H.
    destruct (tokens data) as [e|start e|start content] eqn:Htok.
    + done.
    + by destruct (String.eqb _ _).
    + destruct (String.eqb_spec (localOf start) "project") as [Heq|_]; [|done].
      injection H as <-. by exists f, data, start, content.
  - intros (f & data & start & content & Hopen & Hread & Htok & Hname & ->).
    exists f, data. split; [done|]. split; [done|].
    by rewrite Unmarshal_zero, Htok, Hname.
Qed.

(** X12.  A readable file whose first element is not called [project],
    however well-formed, ends the process: [Parse] logs the name mismatch
    and does not return. *)
Theorem Parse_wrong_root_is_fatal
    (fs : FileSystem) (path : string) (f : File) (data : list Byte.byte)
    (start : StartElement) :
  fs path = Ok f ->
  ReadAll f = Ok data ->
  (exists content, tokens data = Root start content)
  \/ (exists e, tokens data = Truncated start e) ->
  localOf start <> "project" ->
  Parse tokens fs path
  = Fatal ("unable to unmarshal pom file. Reason: "
           +:+ "expected element type <project> but have <"
           +:+ localOf start +:+ ">").
Proof.
  intros Hopen Hread Htok Hname. unfold Parse.
  rewrite Hopen, Hread, Unmarshal_zero.
  apply String.eqb_neq in Hname.
  by destruct Htok as [[content ->]|[e ->]]; rewrite Hname.
Qed.

(** C8.  For every valid POM document, that is, content whose first
    element is complete and called [project], any two calls of [Parse]
    that read that content, from whatever paths and file systems, both
    return a project, and the two projects are equal field by field: each
    is the reading of the document, which depends on its content alone. *)
Theorem Parse_same_content_same_project
    (fs1 fs2 : FileSystem) (path1 path2 : string) (f1 f2 : File)
    (data : list Byte.byte) (start : StartElement) (content : list Node) :
  fs1 path1 = Ok f1 -> ReadAll f1 = Ok data ->
  fs2 path2 = Ok f2 -> ReadAll f2 = Ok data ->
  tokens data = Root start content ->
  localOf start = "project" ->
  exists p,
    Parse tokens fs1 path1 = Return (Some p) None
    /\ Parse tokens fs2 path2 = Return (Some p) None
    /\ p = Reading.project start content.
Proof.
  intros H1 R1 H2 R2 Htok Hname.
  exists (Reading.project start content). unfold Parse.
  rewrite H1, R1, H2, R2, Unmarshal_zero, Htok, Hname.
  rewrite String.eqb_refl. done.
Qed.

End MoreEnvironment.

(** ** The order of sections *)

Lemma inside_ext x c c' :
  (forall y, elementsNamed y c = elementsNamed y c') -> inside x c = inside x c'.
Proof. intros H. unfold inside. by rewrite H. Qed.

Lemma elementsAt_ext path c c' :
  (forall y, elementsNamed y c = elementsNamed y c') ->
  elementsAt path c = elementsAt path c'.
Proof.
  intros H. destruct path as [|x [|y path]]; [done|apply H|].
  by rewrite !elementsAt_cons, (inside_ext x c c' H).
Qed.

Lemma childText_ext x c c' :
  (forall y, elementsNamed y c = elementsNamed y c') ->
  childText x c = childText x c'.
Proof. intros H. unfold childText. by rewrite H. Qed.

Lemma project_ext start c c' :
  (forall y, elementsNamed y c = elementsNamed y c') ->
  Reading.project start c = Reading.project start c'.
Proof.
  intros H. unfold Reading.project.
  rewrite !(inside_ext _ c c' H), !(childText_ext _ c c' H), (H "profiles").
  rewrite (elementsAt_ext ["repositories"; "repository"] c c' H).
  rewrite (elementsAt_ext ["dependencies"; "dependency"] c c' H).
  by rewrite (elementsAt_ext ["pluginRepositories"; "pluginRepository"] c c' H).
Qed.

(** X13.  Only the sequence of elements of each name matters: two
    contents that have, name by name, the same child elements in the same
    order decode to the same result, so sections of different names may
    come in any order and be interleaved with anything that is not an
    element. *)
Theorem unmarshal_order_of_sections
    (start : StartElement) (c c' : list Node) :
  (forall x, elementsNamed x c = elementsNamed x c') ->
  MavenProject.unmarshal start c MavenProject.zero
  = MavenProject.unmarshal start c' MavenProject.zero.
Proof.
  intros H. rewrite !MavenProject_unmarshal_zero. by rewrite (project_ext _ _ _ H).
Qed.

(** * The further properties on sample documents *)

Lemma Dependency_unmarshal_reading_witness :
  Dependency.unmarshal (startOf "dependency") dependencyDoc Dependency.zero
  = Ok (Reading.dependency (startOf "dependency", dependencyDoc))
  /\ length (Dependency.Exclusions
               (Reading.dependency (startOf "dependency", dependencyDoc)))
     = 2.
Proof.
  apply (Dependency_unmarshal_reading (startOf "dependency") dependencyDoc).
  reflexivity.
Defined.

Lemma Properties_of_document_witness :
  let tokens := fun _ : list Byte.byte => Root (startOf "project") propertiesDoc in
  let p := Reading.project (startOf "project") propertiesDoc in
  Unmarshal tokens [] MavenProject.zero = Ok p
  /\ ((forall k,
         Properties.entries (MavenProject.Properties p) !! k
         = match last (elementsAt ["properties"; k] propertiesDoc) with
           | Some (_, c) => Some (chardata c)
           | None => None
           end)
      /\ (MavenProject.Properties p = None
          <-> elements (inside "properties" propertiesDoc) = [])).
Proof.
  intros tokens p. split; [reflexivity|].
  apply (Properties_of_document tokens [] (startOf "project") propertiesDoc p);
    reflexivity.
Defined.

Lemma GetProperty_unique_match_witness :
  let mp := Reading.project (startOf "project") propertiesDoc in
  GetProperty (fun s => s) mp "JAVA.Version" ("11", true)
  /\ forall r, GetProperty (fun s => s) mp "JAVA.Version" r -> r = ("11", true).
Proof.
  intros mp.
  apply (GetProperty_unique_match (fun s => s) mp "JAVA.Version"
           "java.version" "11").
  - reflexivity.
  - reflexivity.
  - intros k' v' Hk' Hmatch. subst mp.
    change (MavenProject.Properties
              (Reading.project (startOf "project") propertiesDoc))
      with (Reading.properties (inside "properties" propertiesDoc)) in Hk'.
    rewrite (Reading_properties_document propertiesDoc k') in Hk'.
    simpl in Hk'. unfold localOf, startOf in Hk'. simpl in Hk'.
    destruct (String.eqb_spec "java.version" k') as [Hj|Hj];
      destruct (String.eqb_spec "encoding" k') as [He|He].
    + congruence.
    + vm_compute in Hk'. congruence.
    + subst k'. vm_compute in Hmatch. discriminate Hmatch.
    + discriminate Hk'.
Defined.

Lemma GetProperty_key_case_witness :
  let mp := Reading.project (startOf "project") propertiesDoc in
  GetProperty (fun s => s) mp "java.version" ("11", true)
  <-> GetProperty (fun s => s) mp "JAVA.VERSION" ("11", true).
Proof.
  intros mp.
  apply (GetProperty_key_case (fun s => s) mp "JAVA.VERSION" ("11", true)).
  reflexivity.
Defined.

Lemma GetProperty_of_document_witness :
  let tokens := fun _ : list Byte.byte => Root (startOf "project") propertiesDoc in
  let p := Reading.project (startOf "project") propertiesDoc in
  GetProperty (fun s => s) p "ENCODING" ("UTF-8", true)
  <-> exists k s c,
        ToLower (fun s => s) k = ToLower (fun s => s) "ENCODING"
        /\ last (elementsAt ["properties"; k] propertiesDoc) = Some (s, c)
        /\ chardata c = "UTF-8".
Proof.
  intros tokens p.
  apply (GetProperty_of_document tokens (fun s => s) [] (startOf "project")
           propertiesDoc p "ENCODING" "UTF-8");
    reflexivity.
Defined.

Lemma Parse_same_content_same_project_witness :
  exists p,
    Parse sampleTokens sampleFS "pom.xml" = Return (Some p) None
    /\ Parse sampleTokens sampleFS "copy/pom.xml" = Return (Some p) None
    /\ p = Reading.project (startOf "project") minimalDoc.
Proof.
  apply (Parse_same_content_same_project sampleTokens sampleFS sampleFS
           "pom.xml" "copy/pom.xml"
           {| ReadAll := Ok (list_byte_of_string minimalPom) |}
           {| ReadAll := Ok (list_byte_of_string minimalPom) |}
           (list_byte_of_string minimalPom) (startOf "project") minimalDoc);
    reflexivity.
Defined.

Lemma unmarshal_never_reads_Attr_witness :
  MavenProject.unmarshal
    {| name := {| Space := ""; Local := "project" |};
       attr := [{| AttrName := {| Space := ""; Local := "id" |};
                   AttrValue := "root" |}] |}
    [Element {| name := {| Space := ""; Local := "groupId" |};
                attr := [{| AttrName := {| Space := ""; Local := "lang" |};
                            AttrValue := "en" |}] |}
       [CharData "g"]]
    MavenProject.zero
  = MavenProject.unmarshal (startOf "project") [leaf "groupId" "g"]
      MavenProject.zero.
Proof.
  apply unmarshal_never_reads_Attr; reflexivity.
Defined.

Lemma Parse_wrong_root_is_fatal_witness :
  let tokens := fun _ : list Byte.byte => Root (startOf "settings") [] in
  Parse tokens sampleFS "pom.xml"
  = Fatal "unable to unmarshal pom file. Reason: expected element type <project> but have <settings>".
Proof.
  intros tokens.
  apply (Parse_wrong_root_is_fatal tokens sampleFS "pom.xml"
           {| ReadAll := Ok (list_byte_of_string minimalPom) |}
           (list_byte_of_string minimalPom) (startOf "settings"));
    [reflexivity|reflexivity| |discriminate].
  left. exists []. reflexivity.
Defined.

Lemma unmarshal_order_of_sections_witness :
  MavenProject.unmarshal (startOf "project")
    [leaf "groupId" "g"; leaf "artifactId" "a"; leaf "version" "1.0"]
    MavenProject.zero
  = MavenProject.unmarshal (startOf "project")
      [leaf "version" "1.0"; Comment "moved"; leaf "groupId" "g";
       leaf "artifactId" "a"]
      MavenProject.zero.
Proof.
  apply (unmarshal_order_of_sections (startOf "project")).
  intros x. unfold leaf, elem, startOf. simpl. unfold localOf. simpl.
  destruct (String.eqb_spec "groupId" x) as [Hg|Hg];
    destruct (String.eqb_spec "artifactId" x) as [Ha|Ha];
    destruct (String.eqb_spec "version" x) as [Hv|Hv];
    congruence.
Defined.

(** The decorated document decodes like the minimal one, name space
    apart. *)
Example unmarshal_decoratedDoc :
  exists p,
    MavenProject.unmarshal (startOf "project") decoratedDoc MavenProject.zero = Ok p
    /\ MavenProject.GroupId p = "g"
    /\ MavenProject.ArtifactId p = "a"
    /\ MavenProject.Version p = "1.0"
    /\ MavenProject.Dependencies p = [].
Proof. eexists. repeat split; reflexivity. Qed.

(** Two properties that differ only by case: either value is a possible
    answer. *)
Example GetProperty_ambiguous :
  let mp := MavenProject.set_Properties
              (Some (<["a" := "1"]> (<["A" := "2"]> ∅))) MavenProject.zero in
  GetProperty (fun s => s) mp "a" ("1", true)
  /\ GetProperty (fun s => s) mp "a" ("2", true).
Proof.
  intros mp. split; apply GetProperty_true_iff.
  - exists "a". split; reflexivity.
  - exists "A". split; reflexivity.
Qed.
